(** * fastai_slack: Slack notifications for a fastai training loop

    A shallow embedding of [fastai_slack/__init__.py].  Module-level
    functions become functions in a state-and-exception monad over the
    outside world (environment variables, terminal, random source, network,
    console); the methods of [SlackCallback] run in the same monad over the
    pair of the callback object and the world, so that every attribute
    assignment of the source is an explicit state update. *)

From Stdlib Require Import ZArith Lia Ascii String List Bool.
From Stdlib Require Import Decimal DecimalString DecimalN DecimalZ DecimalPos.
From stdpp Require Import base option list strings gmap.

Local Open Scope string_scope.
Local Open Scope Z_scope.

(** ** Python values *)

(** A Python [float] is an IEEE-754 binary64: a NaN, an infinity, or the
    finite value [(-1)^neg * m * 2^e]. *)
Inductive pyfloat : Type :=
| Fnan
| Finf (neg : bool)
| Ffinite (neg : bool) (m : Z) (e : Z).

(** The finite binary64 values: 53 bits of significand, exponent of the
    last place between -1074 and 971. *)
Definition binary64 (x : pyfloat) : Prop :=
  match x with
  | Ffinite _ m e => 0 <= m < 2 ^ 53 /\ -1074 <= e <= 971
  | _ => True
  end.

Definition is_finite (x : pyfloat) : bool :=
  match x with Ffinite _ _ _ => true | _ => false end.

(** What the training loop hands to [format_metric]: a Python float, or a
    zero-dimensional float [torch.Tensor], which formats through its
    [item()]. *)
Inductive metric_value : Type :=
| Number (x : pyfloat)
| Tensor (item : pyfloat).

(** Exceptions the modelled code can meet; [RuntimeError] stands for
    whatever made the training fail. *)
Inductive pyexn : Type :=
| AttributeError (what : string)
| ValueError (what : string)
| ZeroDivisionError
| IndexError
| EOFError
| RequestException (what : string)
| RuntimeError (what : string).

(** [str(e)] *)
Definition str_exn (e : pyexn) : string :=
  match e with
  | AttributeError s => s
  | ValueError s => s
  | ZeroDivisionError => "integer division or modulo by zero"
  | IndexError => "Cannot choose from an empty sequence"
  | EOFError => ""
  | RequestException s => s
  | RuntimeError s => s
  end.

(** The JSON documents handed to [json.dumps]. *)
Inductive json_value : Type :=
| JString (s : string)
| JBool (b : bool).

Inductive json : Type :=
| JObject (fields : list (string * json_value)).

(** ** The monad: state plus exceptions *)

Inductive outcome (A : Type) : Type :=
| Returned (a : A)
| Raised (e : pyexn).
Arguments Returned {A} a.
Arguments Raised {A} e.

Definition M (S A : Type) : Type := S -> outcome A * S.

Definition ret {S A} (a : A) : M S A := fun s => (Returned a, s).

Definition bind {S A B} (m : M S A) (k : A -> M S B) : M S B :=
  fun s => match m s with
           | (Returned a, s') => k a s'
           | (Raised e, s') => (Raised e, s')
           end.

Definition raise {S A} (e : pyexn) : M S A := fun s => (Raised e, s).

(** [try: body  except Exception as e: handler e] *)
Definition try_except {S A} (body : M S A) (handler : pyexn -> M S A) : M S A :=
  fun s => match body s with
           | (Returned a, s') => (Returned a, s')
           | (Raised e, s') => handler e s'
           end.

Definition get {S} : M S S := fun s => (Returned s, s).
Definition modify {S} (f : S -> S) : M S unit := fun s => (Returned tt, f s).

Notation "x <- m ;; k" := (bind m (fun x => k))
  (at level 100, m at next level, right associativity).
Notation "m ;;; k" := (bind m (fun _ => k))
  (at level 100, right associativity).

(** ** Python integers and strings *)

(** [a % b] on integers: the sign follows the divisor; zero raises. *)
Definition py_mod {S} (a b : Z) : M S Z :=
  if b =? 0 then raise ZeroDivisionError else ret (a mod b).

(** [str(n)] for an integer. *)
Definition str_int (n : Z) : string := NilEmpty.string_of_int (Z.to_int n).

(** [str(n)] for a natural number. *)
Definition str_N (n : N) : string := NilEmpty.string_of_uint (N.to_uint n).

(** [sep.join(parts)] *)
Fixpoint join (sep : string) (parts : list string) : string :=
  match parts with
  | [] => ""
  | [p] => p
  | p :: rest => p ++ sep ++ join sep rest
  end.

Definition nl : string := String (ascii_of_nat 10) "".

(** [sub in s] *)
Definition contains (s sub : string) : Prop :=
  exists pre suf, s = pre ++ sub ++ suf.

(** ** Formatting and reading floats *)

(** Nearest integer to [a / b] for [b > 0], ties to the even one. *)
Definition round_half_even (a b : Z) : Z :=
  let q := a / b in
  let r := a mod b in
  if 2 * r <? b then q
  else if b <? 2 * r then q + 1
  else if Z.even q then q else q + 1.

(** The four decimals, as an integer count of ten-thousandths: the exact
    value [m * 2^e] correctly rounded, as CPython's [dtoa] does. *)
Definition ten_thousandths (m e : Z) : Z :=
  if 0 <=? e then m * 2 ^ e * 10000
  else round_half_even (m * 10000) (2 ^ (- e)).

(** The character of a digit [0 <= d < 10]. *)
Definition digit (d : Z) : ascii := ascii_of_nat (48 + Z.to_nat d).

(** Exactly four decimal digits of [n mod 10000], zero padded. *)
Definition four_digits (n : Z) : string :=
  String (digit (n / 1000 mod 10))
    (String (digit (n / 100 mod 10))
       (String (digit (n / 10 mod 10))
          (String (digit (n mod 10)) ""))).

Definition sign_str (neg : bool) : string := if neg then "-" else "".

(** ['{:.4f}'.format(x)] for a float [x]. *)
Definition format_4f (x : pyfloat) : string :=
  match x with
  | Fnan => "nan"
  | Finf neg => sign_str neg ++ "inf"
  | Ffinite neg m e =>
      let n := ten_thousandths m e in
      sign_str neg ++ str_N (Z.to_N (n / 10000)) ++ "." ++ four_digits n
  end.

(** Whether [p / q >= 2^l], for positive [p], [q]. *)
Definition ge_pow2 (p q l : Z) : bool :=
  if 0 <=? l then q * 2 ^ l <=? p else q <=? p * 2 ^ (- l).

(** [floor (log2 (p / q))] for positive [p], [q]. *)
Definition log2_ratio (p q : Z) : Z :=
  let l := Z.log2 p - Z.log2 q in
  if ge_pow2 p q l then l else l - 1.

(** The binary64 nearest to [p / q] ([p >= 0], [q > 0]), ties to even,
    overflowing to an infinity: what [float()] makes of a decimal. *)
Definition round64 (neg : bool) (p q : Z) : pyfloat :=
  if p =? 0 then Ffinite neg 0 (-1074)
  else
    let e := Z.max (log2_ratio p q - 52) (-1074) in
    let m := if 0 <=? e then round_half_even p (q * 2 ^ e)
             else round_half_even (p * 2 ^ (- e)) q in
    let '(m, e) := if m =? 2 ^ 53 then (2 ^ 52, e + 1) else (m, e) in
    if 971 <? e then Finf neg else Ffinite neg m e.

(** Splits at the first ["."]: the part before, and the part after if
    there is a point. *)
Fixpoint split_point (s : string) : string * option string :=
  match s with
  | "" => ("", None)
  | String c rest =>
      if Ascii.eqb c "." then ("", Some rest)
      else let '(a, b) := split_point rest in (String c a, b)
  end.

(** The number a non-empty string of decimal digits denotes. *)
Definition digits_value (s : string) : option Z :=
  match s with
  | "" => None
  | _ => option_map (fun d => Z.of_N (N.of_uint d)) (NilEmpty.uint_of_string s)
  end.

(** Takes a leading minus sign off. *)
Definition strip_sign (s : string) : bool * string :=
  match s with
  | String c rest => if Ascii.eqb c "-" then (true, rest) else (false, s)
  | "" => (false, s)
  end.

(** [float(s)] on the strings a fixed-point format produces: an optional
    minus sign, then [nan], [inf], or digits with an optional fraction.
    [None] stands for the [ValueError] on anything else. *)
Definition float_of_string (s : string) : option pyfloat :=
  let '(neg, body) := strip_sign s in
  if String.eqb body "nan" then Some Fnan
  else if String.eqb body "inf" then Some (Finf neg)
  else
    match split_point body with
    | (ip, None) => option_map (fun n => round64 neg n 1) (digits_value ip)
    | (ip, Some fp) =>
        match digits_value ip, digits_value fp with
        | Some a, Some b =>
            let scale := 10 ^ Z.of_nat (String.length fp) in
            Some (round64 neg (a * scale + b) scale)
        | _, _ => None
        end
    end.

(** ** The outside world *)

(** What [requests.post] comes back with: a response, or a failure of the
    transport (DNS, timeout, refused connection, ...). *)
Inductive reply : Type :=
| Response (status_code : Z) (content : string)
| Failure (what : string).

Record World : Type := mkWorld {
  environ : gmap string string;     (* os.environ *)
  tty : list string;                (* what will be typed at the prompts *)
  rng : nat -> nat;                 (* the raw random stream ... *)
  drawn : nat;                      (* ... and how much of it was used *)
  network : nat -> string -> string -> reply;
                                    (* the answer to the n-th POST *)
  last_traceback : option (list string);
                                    (* sys.last_traceback, if set, as
                                       traceback.format_tb renders it *)
  posts : list (string * string);   (* POSTs made so far: url and body *)
  stdout : list string              (* lines printed so far *)
}.

Definition set_tty (t : list string) (w : World) : World :=
  mkWorld (environ w) t (rng w) (drawn w) (network w) (last_traceback w)
          (posts w) (stdout w).
Definition set_drawn (d : nat) (w : World) : World :=
  mkWorld (environ w) (tty w) (rng w) d (network w) (last_traceback w)
          (posts w) (stdout w).
Definition set_posts (p : list (string * string)) (w : World) : World :=
  mkWorld (environ w) (tty w) (rng w) (drawn w) (network w) (last_traceback w)
          p (stdout w).
Definition set_stdout (o : list string) (w : World) : World :=
  mkWorld (environ w) (tty w) (rng w) (drawn w) (network w) (last_traceback w)
          (posts w) o.

(** Library functions whose output is only passed along. *)
Class Platform : Type := {
  (* json.dumps *)
  json_dumps : json -> string;
  (* pandas: DataFrame([vals], columns=names).to_string(index=False) *)
  to_string : list string -> list string -> string
}.

(** [print(line)] *)
Definition print (line : string) : M World unit :=
  modify (fun w => set_stdout (stdout w ++ [line]) w).

(** [getpass()] *)
Definition getpass : M World string :=
  w <- get;;
  match tty w with
  | [] => raise EOFError
  | line :: rest => modify (set_tty rest);;; ret line
  end.

(** [random.choice(seq)] *)
Definition random_choice {A} (seq : list A) : M World A :=
  w <- get;;
  match seq !! (rng w (drawn w) mod length seq)%nat with
  | Some x => modify (set_drawn (S (drawn w)));;; ret x
  | None => raise IndexError
  end.

(** [requests.post(url, data=data)] *)
Definition requests_post (url data : string) : M World (Z * string) :=
  w <- get;;
  modify (set_posts (posts w ++ [(url, data)]));;;
  match network w (length (posts w)) url data with
  | Response code content => ret (code, content)
  | Failure what => raise (RequestException what)
  end.

(** [[m for _ in range(n)]] *)
Fixpoint replicateM {S A} (n : nat) (m : M S A) : M S (list A) :=
  match n with
  | O => ret []
  | S n' => x <- m;; xs <- replicateM n' m;; ret (x :: xs)
  end.

(** ** Module-level functions *)

Definition ENV_KEY : string := "FASTAI_SLACK_WEBHOOK".

Definition dq : string := String (ascii_of_nat 34) "".

Definition help_message : string :=
  "You must provide a " ++ dq ++ "Slack Incoming Webhook" ++ dq ++
  " URL for sending messages. " ++
  "You can generate a webhook URL for your workspace by following this " ++
  "guide: https://api.slack.com/incoming-webhooks".

Definition read_webhook_url (check_env help_text : bool) : M World string :=
  w <- get;;
  match environ w !! ENV_KEY with
  | Some v => ret v
  | None =>
      (if help_text then print help_message else ret tt);;;
      print "Enter webhook URL:";;;
      url <- getpass;;
      ret url
  end.

(** [string.ascii_lowercase + string.digits] *)
Definition alphabet : list ascii :=
  list_ascii_of_string "abcdefghijklmnopqrstuvwxyz0123456789".

Definition generate_tag : M World string :=
  chars <- replicateM 6 (random_choice alphabet);;
  ret (string_of_list_ascii chars).

Definition failed_line (msg url : string) : string :=
  "Falied to send notification " ++ dq ++ msg ++ dq ++ " to " ++ dq ++ url ++ dq.

(** What [sendNotification] prints when the network answers [r]: nothing on
    status 200, else the line naming message and URL, and the response or
    the exception. *)
Definition diagnostics (r : reply) (msg url : string) : list string :=
  match r with
  | Response code content =>
      if code =? 200 then [] else [failed_line msg url; "Response " ++ content]
  | Failure what => [failed_line msg url; what]
  end.

Section Program.
Context `{Platform}.

Definition slack_payload (msg : string) : json :=
  JObject [("text", JString msg); ("mrkdwn", JBool true)].

Definition sendNotification (url msg : string) : M World bool :=
  try_except
    (res <- requests_post url (json_dumps (slack_payload msg));;
     if negb (fst res =? 200) then
       print (failed_line msg url);;;
       print ("Response " ++ snd res);;;
       ret false
     else ret true)
    (fun e =>
       print (failed_line msg url);;;
       print (str_exn e);;;
       ret false).

Definition item_of (val : metric_value) : pyfloat :=
  match val with
  | Number x => x
  | Tensor item => item          (* val.detach().data *)
  end.

Definition format_metric (val : metric_value) : string :=
  format_4f (item_of val).

Definition fence : string := "```".

(** pandas refuses a row that has not one value per column. *)
Definition format_metrics {S} (names : list string) (metric_vals : list metric_value)
  : M S string :=
  let vals := map format_metric metric_vals in
  if (length names =? length vals)%nat
  then ret (fence ++ nl ++ to_string names vals ++ nl ++ fence)
  else raise (ValueError "columns passed do not match the data").

(** ** The callback *)

Record SlackCallback : Type := mkSlackCallback {
  name : string;
  freq : Z;
  tag : string;
  url : string;
  metrics : option (list string)    (* unset until training begins *)
}.

Definition set_tag (t : string) (self : SlackCallback) : SlackCallback :=
  mkSlackCallback (name self) (freq self) t (url self) (metrics self).
Definition set_metrics (m : list string) (self : SlackCallback) : SlackCallback :=
  mkSlackCallback (name self) (freq self) (tag self) (url self) (Some m).

(** The keyword arguments the training loop passes to every callback. *)
Record kwargs : Type := mkKwargs {
  epoch : Z;
  n_epochs : Z;
  smooth_loss : metric_value;
  last_metrics : list metric_value;
  metrics_names : list string;
  exception : option pyexn          (* an exception, or a false value *)
}.

(** A callback object in its world. *)
Record Process : Type := mkProcess {
  this : SlackCallback;
  outside : World
}.

(** Runs a module-level function from inside a method. *)
Definition io {A} (m : M World A) : M Process A :=
  fun p => let '(r, w) := m (outside p) in (r, mkProcess (this p) w).

(** [self], read *)
Definition self : M Process SlackCallback :=
  fun p => (Returned (this p), p).

(** [self.attribute = value] *)
Definition assign (f : SlackCallback -> SlackCallback) : M Process unit :=
  fun p => (Returned tt, mkProcess (f (this p)) (outside p)).

(** [self.metrics] *)
Definition self_metrics : M Process (list string) :=
  s <- self;;
  match metrics s with
  | Some m => ret m
  | None => raise (AttributeError "'SlackCallback' object has no attribute 'metrics'")
  end.

(** [x or y] on strings. *)
Definition truthy (s : string) : bool := negb (String.eqb s "").

Definition __init__ (name : string) (webhook_url : option string) (frequency : Z)
  : M World SlackCallback :=
  url <- match webhook_url with
         | Some u => if truthy u then ret u else read_webhook_url true true
         | None => read_webhook_url true true
         end;;
  ret (mkSlackCallback name frequency "" url None).

(** A message is a string, or a list of lines. *)
Inductive message : Type :=
| Text (s : string)
| Lines (l : list string).

Definition banner (name tag : string) : string :=
  "[`" ++ name ++ " " ++ tag ++ "`] ".

(** [if isinstance(msg, (list, tuple)): msg = '\n'.join(msg)] *)
Definition text_of (msg : message) : string :=
  match msg with
  | Lines l => join nl l
  | Text s => s
  end.

Definition _send (msg : message) : M Process unit :=
  let msg := text_of msg in
  s <- self;;
  io (sendNotification (url s) (banner (name s) (tag s) ++ msg));;;
  ret tt.

(** [msg or []] *)
Definition lines_of (msg : option (list string)) : list string :=
  match msg with
  | Some (x :: l) => x :: l
  | _ => []
  end.

Definition _send_metrics (ka : kwargs) (msg : option (list string)) : M Process unit :=
  let msg := lines_of msg in
  let '(epoch, n_epochs) := (epoch ka + 1, n_epochs ka) in
  let epoch := Z.min epoch n_epochs in
  let msg := app msg ["Epoch " ++ str_int epoch ++ "/" ++ str_int n_epochs] in
  names <- self_metrics;;
  metrics_str <- format_metrics names (smooth_loss ka :: last_metrics ka);;
  let msg := app msg [metrics_str] in
  _send (Lines msg).

Definition on_train_begin (ka : kwargs) : M Process unit :=
  t <- io generate_tag;;
  assign (set_tag t);;;
  assign (set_metrics (app ["train_loss"; "valid_loss"] (metrics_names ka)));;;
  let n_epochs := n_epochs ka in
  _send (Text ("*Started training for " ++ str_int n_epochs ++ " epochs*"));;;
  s <- self;;
  io (print ("Slack notification tag: [" ++ name s ++ " " ++ tag s ++ "]")).

Definition on_epoch_end (ka : kwargs) : M Process unit :=
  s <- self;;
  due <- (if 0 <? freq s
          then r <- py_mod (epoch ka + 1) (freq s);; ret (r =? 0)
          else ret false);;
  if due then _send_metrics ka None else ret tt.

Definition on_train_end (ka : kwargs) : M Process unit :=
  let ex := exception ka in
  match ex with
  | Some ex =>
      let ex_str := "`" ++ str_exn ex ++ "`" in
      w <- io get;;
      let tb_str := match last_traceback w with
                    | Some tb => fence ++ nl ++ join nl tb ++ nl ++ fence
                    | None => "Failed to detect stacktrace"
                    end in
      _send (Lines ["*Training failed with exception:"; ex_str; tb_str])
  | None =>
      let msg := ["*Training complete*"] in
      let n_epochs := n_epochs ka in
      s <- self;;
      final <- (if freq s =? 0 then ret true
                else r <- py_mod n_epochs (freq s);; ret (0 <? r));;
      if final then _send_metrics ka (Some msg) else _send (Lines msg)
  end.

End Program.

(** ** The training loop, as the callback sees it *)

Section Loop.
Context `{Platform}.

Inductive event : Type :=
| TrainBegin (ka : kwargs)
| EpochEnd (ka : kwargs)
| TrainEnd (ka : kwargs).

Definition fire (ev : event) : M Process unit :=
  match ev with
  | TrainBegin ka => on_train_begin ka
  | EpochEnd ka => on_epoch_end ka
  | TrainEnd ka => on_train_end ka
  end.

(** The callbacks are called one after the other; an exception escaping
    one of them ends the run. *)
Fixpoint run (evs : list event) : M Process unit :=
  match evs with
  | [] => ret tt
  | ev :: rest => fire ev;;; run rest
  end.

Definition is_begin (ev : event) : bool :=
  match ev with TrainBegin _ => true | _ => false end.

(** What the training loop owes a callback: it reports metrics only after
    training has begun, and brings one value per tracked name. *)
Definition well_formed (ev : event) (p : Process) : Prop :=
  match ev with
  | TrainBegin _ => True
  | EpochEnd ka | TrainEnd ka =>
      exists names, metrics (this p) = Some names /\
                    length names = S (length (last_metrics ka))
  end.

(** ** Vocabulary of the statements *)

(** The POSTs a computation adds to the world's record. *)
Definition sent_by {A} (m : M Process A) (p : Process) : list (string * string) :=
  drop (length (posts (outside p))) (posts (outside (snd (m p)))).

(** The POST that carries [text] for the callback [s]. *)
Definition post_of (s : SlackCallback) (text : string) : string * string :=
  (url s, json_dumps (slack_payload (banner (name s) (tag s) ++ text))).

(** Every POST of a list carries the banner of [name] with some tag; with
    [only = Some t] the tag is [t] throughout. *)
Definition bannered (url name : string) (only : option string)
    (new : list (string * string)) : Prop :=
  Forall (fun post =>
            exists t body,
              post = (url, json_dumps (slack_payload (banner name t ++ body))) /\
              (forall t0, only = Some t0 -> t = t0)) new.




(** A per-epoch report is due. *)
Definition due (s : SlackCallback) (ka : kwargs) : Prop :=
  0 < freq s /\ (epoch ka + 1) mod freq s = 0.

(** The last epoch did not already trigger a per-epoch report. *)
Definition final_report_due (s : SlackCallback) (ka : kwargs) : Prop :=
  freq s = 0 \/ 0 < n_epochs ka mod freq s.

Definition epoch_line (ka : kwargs) : string :=
  "Epoch " ++ str_int (Z.min (epoch ka + 1) (n_epochs ka)) ++ "/" ++
  str_int (n_epochs ka).

Definition metrics_table (names : list string) (ka : kwargs) : string :=
  fence ++ nl ++
  to_string names (map format_metric (smooth_loss ka :: last_metrics ka)) ++
  nl ++ fence.

(** The answer the network gives to the POST [sendNotification] is about to
    make. *)
Definition answer (w : World) (url msg : string) : reply :=
  network w (length (posts w)) url (json_dumps (slack_payload msg)).

Definition accepted (r : reply) : bool :=
  match r with
  | Response code _ => code =? 200
  | Failure _ => false
  end.

Definition traceback_block (w : World) : string :=
  match last_traceback w with
  | Some tb => fence ++ nl ++ join nl tb ++ nl ++ fence
  | None => "Failed to detect stacktrace"
  end.

End Loop.

(** A lowercase ASCII letter or a decimal digit. *)
Definition tag_char (c : ascii) : bool :=
  let n := nat_of_ascii c in
  ((97 <=? n) && (n <=? 122) || (48 <=? n) && (n <=? 57))%nat.

(** The world [w'] differs from [w] at most by one more POST, made to [url],
    and by lines added to the console. *)
Definition only_reports (url : string) (w w' : World) : Prop :=
  environ w' = environ w /\ tty w' = tty w /\ rng w' = rng w /\
  network w' = network w /\ last_traceback w' = last_traceback w /\
  (exists new, posts w' = (posts w ++ new)%list /\ (length new <= 1)%nat /\
               Forall (fun post => fst post = url) new) /\
  (exists out, stdout w' = (stdout w ++ out)%list).

(** The first position of [c] in [l]. *)
Fixpoint index_of (c : ascii) (l : list ascii) : nat :=
  match l with
  | [] => O
  | x :: rest => if Ascii.eqb x c then O else S (index_of c rest)
  end.

(** A random stream whose first draws pick the characters of [t]. *)
Definition stream_of (t : string) : nat -> nat :=
  fun i => index_of (nth i (list_ascii_of_string t) "a"%char) alphabet.

(** How many of the one-based epoch numbers [1 .. n] a positive frequency
    divides. *)
Definition reports_in (frequency n : Z) : nat :=
  if 0 <? frequency then Z.to_nat (n / frequency) else O.

(** ** Vocabulary for formatted numbers *)

Definition is_digit (c : ascii) : bool :=
  ((48 <=? nat_of_ascii c) && (nat_of_ascii c <=? 57))%nat.

Definition all_digits (s : string) : bool :=
  forallb is_digit (list_ascii_of_string s).

(** A fixed-point numeral with exactly four digits after the point: an
    optional minus sign, at least one digit, the point, four digits. *)
Definition fixed_point4 (s : string) : Prop :=
  exists (neg : bool) (ip fp : string),
    s = sign_str neg ++ ip ++ "." ++ fp /\
    ip <> "" /\ all_digits ip = true /\
    all_digits fp = true /\ String.length fp = 4%nat.

(** [f] holds of every integer from 0 up to [n - 1]. *)
Fixpoint all_below (f : Z -> bool) (n : nat) : bool :=
  match n with
  | O => true
  | S n' => f (Z.of_nat n') && all_below f n'
  end.

(** The four digits printed for [r] read back as [r]. *)
Definition reads_back (r : Z) : bool :=
  match digits_value (four_digits r) with
  | Some v => (v =? r) && all_digits (four_digits r)
  | None => false
  end.

(** ** A platform and a world to run examples in *)

Definition demo_json_dumps (j : json) : string :=
  match j with
  | JObject fields =>
      "{" ++ join ", "
        (map (fun kv => fst kv ++ ": " ++
                match snd kv with
                | JString s => s
                | JBool b => if b then "true" else "false"
                end) fields) ++ "}"
  end.

#[local] Instance demo_platform : Platform := {|
  json_dumps := demo_json_dumps;
  to_string := fun names vals => join "  " names ++ nl ++ join "  " vals
|}.

Definition demo_world : World :=
  mkWorld ∅ ["https://hooks.example/T0"] (fun n => (7 * n + 3)%nat) 0
          (fun n _ _ => if (n =? 1)%nat then Failure "refused" else Response 200 "ok")
          None [] [].

Definition demo_world_env : World :=
  mkWorld {[ ENV_KEY := "https://hooks.example/ENV" ]} ["https://hooks.example/T0"]
          (fun n => n) 0 (fun _ _ _ => Response 200 "ok") None [] [].

Definition demo_offline : World :=
  mkWorld ∅ [] (fun n => n) 0 (fun _ _ _ => Failure "connection refused")
          None [] [].

Definition demo_callback (frequency : Z) : SlackCallback :=
  mkSlackCallback "job" frequency "" "https://hooks.example/T0" None.

Definition half : pyfloat := Ffinite false 1 (-1).

Definition demo_kwargs (epoch : Z) : kwargs :=
  mkKwargs epoch 4 (Number half) [Tensor half; Number (Ffinite false 3 (-2))]
           ["accuracy"] None.

Definition demo_failure : kwargs :=
  mkKwargs 2 4 (Number Fnan) [] [] (Some (RuntimeError "CUDA out of memory")).

Definition demo_running (frequency : Z) : Process :=
  mkProcess
    (mkSlackCallback "job" frequency "k3x9aa" "https://hooks.example/T0"
       (Some ["train_loss"; "valid_loss"; "accuracy"]))
    demo_world.

(** * Properties *)

(** ** Strings *)

Lemma append_cons (ch : ascii) (a b : string) : String ch a ++ b = String ch (a ++ b).
Proof. reflexivity. Qed.

Lemma append_assoc (a b c : string) : (a ++ b) ++ c = a ++ b ++ c.
Proof.
  induction a as [|ch a IH]; [reflexivity |].
  rewrite !append_cons. now rewrite IH.
Qed.

Lemma append_empty_r (a : string) : a ++ "" = a.
Proof.
  induction a as [|ch a IH]; [reflexivity |].
  rewrite append_cons. now rewrite IH.
Qed.

Lemma append_inv_l (a b c : string) : a ++ b = a ++ c -> b = c.
Proof.
  induction a as [|ch a IH]; [auto |].
  rewrite !append_cons. intros [= E]. auto.
Qed.

Lemma contains_middle (pre sub suf : string) : contains (pre ++ sub ++ suf) sub.
Proof. now exists pre, suf. Qed.

Lemma contains_suffix (pre sub : string) : contains (pre ++ sub) sub.
Proof. exists pre, "". now rewrite append_empty_r. Qed.

(** ** The dispatcher *)

Section Dispatcher.
Context `{Platform}.

Lemma sendNotification_run (url msg : string) (w : World) :
  exists out,
    sendNotification url msg w =
    (Returned (accepted (answer w url msg)),
     set_stdout out
       (set_posts (posts w ++ [(url, json_dumps (slack_payload msg))]) w)).
Proof.
  unfold sendNotification, try_except, requests_post, answer, accepted, bind, get,
    modify, ret, raise, print.
  cbn [fst snd posts set_posts].
  destruct (network w _ url _) as [code content | what].
  - cbn [fst snd]. destruct (code =? 200); cbn [negb]; eexists; reflexivity.
  - eexists; reflexivity.
Qed.

(** C3. [sendNotification] always returns, never raises; it makes exactly
    one POST of the JSON payload; and what it returns is [True] exactly when
    the response came back with status 200: any other status gives [False],
    and so does any failure of the transport. *)
Theorem sendNotification_true_iff_200 (url msg : string) (w : World) :
  exists (b : bool) (w' : World),
    sendNotification url msg w = (Returned b, w') /\
    posts w' = (posts w ++ [(url, json_dumps (slack_payload msg))])%list /\
    (b = true <-> exists content, answer w url msg = Response 200 content) /\
    (forall code content,
        answer w url msg = Response code content -> code <> 200 -> b = false) /\
    (forall what, answer w url msg = Failure what -> b = false).
Proof.
  destruct (sendNotification_run url msg w) as [out E].
  eexists _, _. split; [exact E |]. split; [reflexivity |].
  unfold accepted. destruct (answer w url msg) as [code content | what].
  - repeat split.
    + intros E200. apply Z.eqb_eq in E200. subst. now exists content.
    + intros [c [= -> _]]. reflexivity.
    + intros c1 c2 [= <- _] Hne. now apply Z.eqb_neq.
    + intros what [=].
  - repeat split; try easy. intros [c [=]].
Qed.

End Dispatcher.

(** ** The tag generator *)

Lemma random_choice_run {A} (seq : list A) (w : World) :
  seq <> [] ->
  exists x, x ∈ seq /\
    random_choice seq w = (Returned x, set_drawn (S (drawn w)) w).
Proof.
  intros Hne. unfold random_choice, bind, get, modify, ret.
  assert (Hlt : (rng w (drawn w) mod length seq < length seq)%nat).
  { apply Nat.mod_upper_bound. destruct seq; [congruence | simpl; lia]. }
  destruct (lookup_lt_is_Some_2 seq _ Hlt) as [x Hx].
  rewrite Hx. exists x. split; [| reflexivity].
  apply list_elem_of_lookup. eauto.
Qed.

Lemma replicateM_choice_run {A} (seq : list A) (n : nat) (w : World) :
  seq <> [] ->
  exists xs, length xs = n /\ Forall (fun x => x ∈ seq) xs /\
    replicateM n (random_choice seq) w = (Returned xs, set_drawn (drawn w + n) w).
Proof.
  intros Hne. revert w. induction n as [|n IH]; intros w.
  - exists []. repeat split; [constructor |].
    cbn. unfold ret, set_drawn. rewrite Nat.add_0_r. now destruct w.
  - destruct (random_choice_run seq w Hne) as (x & Hx & Ex).
    destruct (IH (set_drawn (S (drawn w)) w)) as (xs & Hlen & Hall & Exs).
    exists (x :: xs). repeat split.
    + simpl. now rewrite Hlen.
    + now constructor.
    + cbn [replicateM]. unfold bind at 1. rewrite Ex.
      unfold bind at 1. rewrite Exs. unfold ret, set_drawn. cbn.
      do 2 f_equal. lia.
Qed.

Lemma alphabet_tag_chars (c : ascii) : c ∈ alphabet -> tag_char c = true.
Proof.
  intros Hc.
  apply (proj1 (forallb_forall tag_char alphabet)).
  - vm_compute. reflexivity.
  - now apply list_elem_of_In.
Qed.

Lemma length_string_of_list_ascii (l : list ascii) :
  String.length (string_of_list_ascii l) = length l.
Proof. induction l as [|c l IH]; simpl; [reflexivity | now rewrite IH]. Qed.

Lemma generate_tag_run (w : World) :
  exists xs : list ascii,
    generate_tag w = (Returned (string_of_list_ascii xs), set_drawn (drawn w + 6) w) /\
    length xs = 6%nat /\
    Forall (fun c => c ∈ alphabet) xs.
Proof.
  destruct (replicateM_choice_run alphabet 6 w) as (xs & Hlen & Hall & E).
  { discriminate. }
  exists xs. split; [| split; assumption].
  unfold generate_tag, bind. rewrite E. reflexivity.
Qed.

(** C9. Whatever the random source holds, [generate_tag] returns a string
    of exactly six characters, each a lowercase ASCII letter or a decimal
    digit (and it consumes six draws). *)
Theorem generate_tag_six_alphanumerics (w : World) :
  exists t : string,
    generate_tag w = (Returned t, set_drawn (drawn w + 6) w) /\
    String.length t = 6%nat /\
    Forall (fun c => tag_char c = true) (list_ascii_of_string t).
Proof.
  destruct (generate_tag_run w) as (xs & E & Hlen & Hall).
  exists (string_of_list_ascii xs). split; [exact E |]. split.
  - now rewrite length_string_of_list_ascii.
  - rewrite list_ascii_of_string_of_list_ascii.
    eapply Forall_impl; [exact Hall |]. apply alphabet_tag_chars.
Qed.

(** ** The callback: how each method runs *)

Section Callback.
Context `{Platform}.

Lemma sent_by_posts {A} (m : M Process A) (p : Process) (new : list (string * string)) :
  posts (outside (snd (m p))) = (posts (outside p) ++ new)%list ->
  sent_by m p = new.
Proof. intros E. unfold sent_by. rewrite E. apply drop_app_length. Qed.

Lemma sent_by_nothing {A} (m : M Process A) (p : Process) (r : outcome A) :
  m p = (r, p) -> sent_by m p = [].
Proof.
  intros E. apply sent_by_posts. rewrite E. cbn. now rewrite app_nil_r.
Qed.

Lemma _send_run (msg : message) (p : Process) :
  exists w',
    _send msg p = (Returned tt, mkProcess (this p) w') /\
    posts w' = (posts (outside p) ++ [post_of (this p) (text_of msg)])%list /\
    last_traceback w' = last_traceback (outside p) /\
    environ w' = environ (outside p) /\
    drawn w' = drawn (outside p) /\
    rng w' = rng (outside p).
Proof.
  unfold _send, bind, self, io, ret.
  destruct (sendNotification_run (url (this p))
              (banner (name (this p)) (tag (this p)) ++ text_of msg) (outside p))
    as [out E].
  destruct msg as [s | l]; cbn [text_of] in E |- *; rewrite E; cbn [this];
    eexists; (split; [reflexivity |]); cbn; auto.
Qed.

Lemma _send_metrics_run (ka : kwargs) (msg : option (list string)) (p : Process)
    (names : list string) :
  metrics (this p) = Some names ->
  length names = S (length (last_metrics ka)) ->
  _send_metrics ka msg p =
  _send (Lines (lines_of msg ++ [epoch_line ka; metrics_table names ka])) p.
Proof.
  intros Hm Hlen.
  unfold _send_metrics, self_metrics, format_metrics, bind at 1 2 3, self, ret.
  rewrite Hm. cbn [length]. rewrite length_map, Hlen. cbn [length].
  rewrite Nat.eqb_refl. cbn. rewrite <- app_assoc. reflexivity.
Qed.

Lemma _send_metrics_unset (ka : kwargs) (msg : option (list string)) (p : Process) :
  metrics (this p) = None ->
  exists e, _send_metrics ka msg p = (Raised e, p).
Proof.
  intros Hm. unfold _send_metrics, self_metrics, bind, self, ret, raise.
  rewrite Hm. eexists. reflexivity.
Qed.

Lemma _send_metrics_this (ka : kwargs) (msg : option (list string)) (p : Process) :
  this (snd (_send_metrics ka msg p)) = this p /\
  exists new,
    posts (outside (snd (_send_metrics ka msg p))) =
    (posts (outside p) ++ new)%list /\
    Forall (fun post => exists body, post = post_of (this p) body) new.
Proof.
  destruct (metrics (this p)) as [names |] eqn:Hm.
  - destruct (decide (length names = S (length (last_metrics ka)))) as [Hlen | Hlen].
    + rewrite (_send_metrics_run _ _ _ names Hm Hlen).
      destruct (_send_run (Lines (lines_of msg ++
                                  [epoch_line ka; metrics_table names ka])) p)
        as (w' & E & Hp & _).
      rewrite E. cbn. split; [reflexivity |]. eexists. split; [exact Hp |].
      repeat constructor. eexists. reflexivity.
    + unfold _send_metrics, self_metrics, format_metrics, bind, self, ret, raise.
      rewrite Hm. cbn [length]. rewrite length_map.
      cbn [length]. rewrite (proj2 (Nat.eqb_neq _ _) Hlen).
      cbn. split; [reflexivity |]. exists []. rewrite app_nil_r.
      split; [reflexivity | constructor].
  - destruct (_send_metrics_unset ka msg p Hm) as [e E]. rewrite E. cbn.
    split; [reflexivity |]. exists []. rewrite app_nil_r.
    split; [reflexivity | constructor].
Qed.

(** Whether [on_epoch_end] finds a report due, as it computes it. *)
Lemma due_check (s : SlackCallback) (ka : kwargs) (p : Process) :
  (if 0 <? freq s
   then bind (py_mod (epoch ka + 1) (freq s)) (fun r => ret (r =? 0))
   else ret false) p =
  (Returned ((0 <? freq s) && ((epoch ka + 1) mod freq s =? 0)), p).
Proof.
  destruct (Z.ltb_spec 0 (freq s)) as [Hpos | Hle]; [| reflexivity].
  unfold py_mod, bind, ret. destruct (Z.eqb_spec (freq s) 0); [lia | reflexivity].
Qed.

Lemma due_iff (s : SlackCallback) (ka : kwargs) :
  (0 <? freq s) && ((epoch ka + 1) mod freq s =? 0) = true <-> due s ka.
Proof. unfold due. rewrite andb_true_iff, Z.ltb_lt, Z.eqb_eq. reflexivity. Qed.

Lemma final_check (s : SlackCallback) (ka : kwargs) (p : Process) :
  (if freq s =? 0 then ret true
   else bind (py_mod (n_epochs ka) (freq s)) (fun r => ret (0 <? r))) p =
  (Returned ((freq s =? 0) || (0 <? n_epochs ka mod freq s)), p).
Proof.
  unfold py_mod, bind, ret. destruct (Z.eqb_spec (freq s) 0); reflexivity.
Qed.

Lemma final_iff (s : SlackCallback) (ka : kwargs) :
  (freq s =? 0) || (0 <? n_epochs ka mod freq s) = true <-> final_report_due s ka.
Proof.
  unfold final_report_due. rewrite orb_true_iff, Z.eqb_eq, Z.ltb_lt. reflexivity.
Qed.

Lemma on_epoch_end_unfold (ka : kwargs) (p : Process) :
  on_epoch_end ka p =
  if (0 <? freq (this p)) && ((epoch ka + 1) mod freq (this p) =? 0)
  then _send_metrics ka None p else (Returned tt, p).
Proof.
  unfold on_epoch_end, bind at 1, self. unfold bind at 1.
  rewrite due_check. now destruct (_ && _).
Qed.

Lemma on_train_end_success_unfold (ka : kwargs) (p : Process) :
  exception ka = None ->
  on_train_end ka p =
  if (freq (this p) =? 0) || (0 <? n_epochs ka mod freq (this p))
  then _send_metrics ka (Some ["*Training complete*"]) p
  else _send (Lines ["*Training complete*"]) p.
Proof.
  intros Hex. unfold on_train_end. rewrite Hex.
  unfold bind at 1, self. unfold bind at 1. rewrite final_check.
  now destruct (_ || _).
Qed.

Lemma on_train_end_failure_unfold (ka : kwargs) (p : Process) (ex : pyexn) :
  exception ka = Some ex ->
  on_train_end ka p =
  _send (Lines ["*Training failed with exception:"; "`" ++ str_exn ex ++ "`";
                traceback_block (outside p)]) p.
Proof.
  intros Hex. unfold on_train_end. rewrite Hex.
  unfold bind at 1, io, get. destruct p as [s w]. reflexivity.
Qed.

(** A method that comes down to one [_send] returns normally, leaves the
    callback alone and posts that one message. *)
Lemma sends_one (m : M Process unit) (p : Process) (msg : message) :
  m p = _send msg p ->
  m p = (Returned tt, snd (m p)) /\
  this (snd (m p)) = this p /\
  sent_by m p = [post_of (this p) (text_of msg)].
Proof.
  intros Em. destruct (_send_run msg p) as (w' & E & Hp & _).
  rewrite E in Em. split; [now rewrite Em |]. split; [now rewrite Em |].
  apply sent_by_posts. rewrite Em. exact Hp.
Qed.

Lemma due_dec (s : SlackCallback) (ka : kwargs) : due s ka \/ ~ due s ka.
Proof.
  destruct ((0 <? freq s) && ((epoch ka + 1) mod freq s =? 0)) eqn:Eb.
  - left. now apply due_iff.
  - right. intros Hd. apply due_iff in Hd. congruence.
Qed.

(** ** Per-epoch reports *)

Lemma on_epoch_end_idle (ka : kwargs) (p : Process) :
  ~ due (this p) ka -> on_epoch_end ka p = (Returned tt, p).
Proof.
  intros Hnd. rewrite on_epoch_end_unfold.
  destruct ((0 <? freq (this p)) && ((epoch ka + 1) mod freq (this p) =? 0))
    eqn:Eb; [| reflexivity].
  apply due_iff in Eb. contradiction.
Qed.

Lemma on_epoch_end_report (ka : kwargs) (p : Process) (names : list string) :
  metrics (this p) = Some names ->
  length names = S (length (last_metrics ka)) ->
  due (this p) ka ->
  on_epoch_end ka p = _send (Lines [epoch_line ka; metrics_table names ka]) p.
Proof.
  intros Hm Hlen Hd. apply due_iff in Hd.
  rewrite on_epoch_end_unfold, Hd.
  exact (_send_metrics_run ka None p names Hm Hlen).
Qed.

(** C1. [on_epoch_end] sends nothing and changes nothing unless the
    frequency is positive and divides the one-based epoch number; it sends
    only if it does. Once training has begun and as many values arrive as
    there are tracked names, it then sends exactly one message, the epoch
    line with the metric table. With frequency 2 over 4 epochs the messages
    go out exactly at the epochs displayed as 2 and 4; with frequency 0
    nothing is ever sent. *)
Theorem on_epoch_end_dispatches_iff_due (p : Process) (ka : kwargs) :
  (~ due (this p) ka -> on_epoch_end ka p = (Returned tt, p)) /\
  (freq (this p) = 0 -> sent_by (on_epoch_end ka) p = []) /\
  (sent_by (on_epoch_end ka) p <> [] -> due (this p) ka) /\
  (forall names : list string,
      metrics (this p) = Some names ->
      length names = S (length (last_metrics ka)) ->
      fst (on_epoch_end ka p) = Returned tt /\
      (due (this p) ka ->
         sent_by (on_epoch_end ka) p =
         [post_of (this p) (join nl [epoch_line ka; metrics_table names ka])]) /\
      (sent_by (on_epoch_end ka) p <> [] <-> due (this p) ka) /\
      (freq (this p) = 2 -> n_epochs ka = 4 -> 0 <= epoch ka < 4 ->
         (sent_by (on_epoch_end ka) p <> [] <->
          Z.min (epoch ka + 1) (n_epochs ka) = 2 \/
          Z.min (epoch ka + 1) (n_epochs ka) = 4))).
Proof.
  pose proof (on_epoch_end_idle ka p) as Hidle.
  assert (Honly : sent_by (on_epoch_end ka) p <> [] -> due (this p) ka).
  { intros Hs. destruct (due_dec (this p) ka) as [Hd | Hnd]; [exact Hd |].
    exfalso. apply Hs. eapply sent_by_nothing. now apply Hidle. }
  split; [exact Hidle |]. split.
  { intros Hf. eapply sent_by_nothing. apply Hidle. unfold due. lia. }
  split; [exact Honly |].
  intros names Hm Hlen.
  assert (Hyes : due (this p) ka ->
            fst (on_epoch_end ka p) = Returned tt /\
            sent_by (on_epoch_end ka) p =
            [post_of (this p) (join nl [epoch_line ka; metrics_table names ka])]).
  { intros Hd.
    destruct (sends_one _ p _ (on_epoch_end_report ka p names Hm Hlen Hd))
      as (Eret & _ & Esent).
    split; [now rewrite Eret | exact Esent]. }
  assert (Hiff : sent_by (on_epoch_end ka) p <> [] <-> due (this p) ka).
  { split; [exact Honly |]. intros Hd.
    destruct (Hyes Hd) as [_ ->]. discriminate. }
  split.
  { destruct (due_dec (this p) ka) as [Hd | Hnd].
    - now destruct (Hyes Hd).
    - now rewrite Hidle. }
  split; [intros Hd; now destruct (Hyes Hd) |].
  split; [exact Hiff |].
  intros Hf Hn Hrange. rewrite Hiff. unfold due. rewrite Hf, Hn.
  assert (Hcases : epoch ka = 0 \/ epoch ka = 1 \/ epoch ka = 2 \/ epoch ka = 3)
    by lia.
  destruct Hcases as [-> | [-> | [-> | ->]]].
  - change ((0 + 1) mod 2) with 1. lia.
  - change ((1 + 1) mod 2) with 0. lia.
  - change ((2 + 1) mod 2) with 1. lia.
  - change ((3 + 1) mod 2) with 0. lia.
Qed.

(** ** The end of training *)

Lemma complete_with_metrics_longer (rest : string) :
  join nl ["*Training complete*"; rest] <> "*Training complete*".
Proof.
  cbn [join]. intros E.
  rewrite <- (append_empty_r "*Training complete*") in E at 2.
  apply append_inv_l in E. discriminate E.
Qed.

Lemma on_train_end_final (ka : kwargs) (p : Process) (names : list string) :
  exception ka = None ->
  metrics (this p) = Some names ->
  length names = S (length (last_metrics ka)) ->
  final_report_due (this p) ka ->
  on_train_end ka p =
  _send (Lines ["*Training complete*"; epoch_line ka; metrics_table names ka]) p.
Proof.
  intros Hex Hm Hlen Hf. apply final_iff in Hf.
  rewrite (on_train_end_success_unfold ka p Hex), Hf.
  exact (_send_metrics_run ka (Some ["*Training complete*"]) p names Hm Hlen).
Qed.

Lemma on_train_end_bare (ka : kwargs) (p : Process) :
  exception ka = None ->
  ~ final_report_due (this p) ka ->
  on_train_end ka p = _send (Lines ["*Training complete*"]) p.
Proof.
  intros Hex Hnf. rewrite (on_train_end_success_unfold ka p Hex).
  destruct ((freq (this p) =? 0) || (0 <? n_epochs ka mod freq (this p)))
    eqn:Eb; [| reflexivity].
  apply final_iff in Eb. contradiction.
Qed.

Lemma final_report_dec (s : SlackCallback) (ka : kwargs) :
  final_report_due s ka \/ ~ final_report_due s ka.
Proof.
  destruct ((freq s =? 0) || (0 <? n_epochs ka mod freq s)) eqn:Eb.
  - left. now apply final_iff.
  - right. intros Hf. apply final_iff in Hf. congruence.
Qed.

(** C2. When training ends without an exception, has begun, and brings
    as many values as there are tracked names, [on_train_end] returns
    normally and sends exactly one message. The message says "Training
    complete"; it goes on with the epoch line and the metric table exactly
    when the frequency is 0 or does not divide the number of epochs, and is
    the bare "Training complete" line otherwise. *)
Theorem on_train_end_success_one_message (p : Process) (ka : kwargs)
    (names : list string) :
  exception ka = None ->
  metrics (this p) = Some names ->
  length names = S (length (last_metrics ka)) ->
  exists text : string,
    fst (on_train_end ka p) = Returned tt /\
    sent_by (on_train_end ka) p = [post_of (this p) text] /\
    contains text "Training complete" /\
    (final_report_due (this p) ka <->
     text = join nl ["*Training complete*"; epoch_line ka; metrics_table names ka]) /\
    (~ final_report_due (this p) ka <-> text = "*Training complete*").
Proof.
  intros Hex Hm Hlen.
  pose proof (complete_with_metrics_longer
                (join nl [epoch_line ka; metrics_table names ka])) as Hdiffer.
  destruct (final_report_dec (this p) ka) as [Hf | Hnf].
  - destruct (sends_one _ p _ (on_train_end_final ka p names Hex Hm Hlen Hf))
      as (Eret & _ & Esent).
    exists (join nl ["*Training complete*"; epoch_line ka; metrics_table names ka]).
    split; [now rewrite Eret |]. split; [exact Esent |].
    split; [apply (contains_middle "*" "Training complete") |].
    split; [tauto |]. split; [contradiction | intros E; now apply Hdiffer in E].
  - destruct (sends_one _ p _ (on_train_end_bare ka p Hex Hnf))
      as (Eret & _ & Esent).
    exists "*Training complete*".
    split; [now rewrite Eret |]. split; [exact Esent |].
    split; [apply (contains_middle "*" "Training complete" "*") |].
    split; [| tauto]. split; [contradiction |].
    intros E. symmetry in E. now apply Hdiffer in E.
Qed.

(** C10. With a negative frequency [on_epoch_end] sends nothing and
    changes nothing, and [on_train_end] without an exception sends the bare
    "Training complete" and nothing else, whether or not training has
    begun: the remainder of a division by a negative number is never
    positive. *)
Theorem negative_frequency_silent (p : Process) (ka : kwargs) :
  freq (this p) < 0 ->
  on_epoch_end ka p = (Returned tt, p) /\
  ~ 0 < n_epochs ka mod freq (this p) /\
  (exception ka = None ->
   fst (on_train_end ka p) = Returned tt /\
   sent_by (on_train_end ka) p = [post_of (this p) "*Training complete*"]).
Proof.
  intros Hneg.
  assert (Hmod : ~ 0 < n_epochs ka mod freq (this p)).
  { pose proof (Z.mod_neg_bound (n_epochs ka) (freq (this p)) Hneg). lia. }
  split; [apply on_epoch_end_idle; unfold due; lia |].
  split; [exact Hmod |].
  intros Hex.
  assert (Hnf : ~ final_report_due (this p) ka) by (unfold final_report_due; lia).
  destruct (sends_one _ p _ (on_train_end_bare ka p Hex Hnf)) as (Eret & _ & Esent).
  split; [now rewrite Eret | exact Esent].
Qed.

(** C5. Given an exception, whatever the frequency and whether or not
    training has begun, [on_train_end] returns normally (the exception is
    not raised again), leaves the callback as it was, and sends exactly one
    message. The message holds the exception's text and, after it, the
    stack trace in a code block when the interpreter recorded one, and
    "Failed to detect stacktrace" when it did not. *)
Theorem on_train_end_reports_exception (p : Process) (ka : kwargs) (ex : pyexn) :
  exception ka = Some ex ->
  exists text : string,
    on_train_end ka p = (Returned tt, snd (on_train_end ka p)) /\
    this (snd (on_train_end ka p)) = this p /\
    sent_by (on_train_end ka) p = [post_of (this p) text] /\
    text = join nl ["*Training failed with exception:";
                    "`" ++ str_exn ex ++ "`"; traceback_block (outside p)] /\
    contains text (str_exn ex) /\
    (forall tb, last_traceback (outside p) = Some tb ->
                contains text (fence ++ nl ++ join nl tb ++ nl ++ fence)) /\
    (last_traceback (outside p) = None ->
     contains text "Failed to detect stacktrace").
Proof.
  intros Hex.
  destruct (sends_one _ p _ (on_train_end_failure_unfold ka p ex Hex))
    as (Eret & Ethis & Esent).
  eexists. split; [exact Eret |]. split; [exact Ethis |]. split; [exact Esent |].
  split; [reflexivity |]. cbn [text_of join].
  assert (Htb : contains ("*Training failed with exception:" ++ nl ++
                          ("`" ++ str_exn ex ++ "`") ++ nl ++
                          traceback_block (outside p))
                         (traceback_block (outside p))).
  { rewrite <- !append_assoc. apply contains_suffix. }
  split.
  { exists ("*Training failed with exception:" ++ nl ++ "`"),
           ("`" ++ nl ++ traceback_block (outside p)).
    rewrite !append_assoc. reflexivity. }
  unfold traceback_block in Htb |- *.
  split.
  - intros tb Etb. rewrite Etb in Htb |- *. exact Htb.
  - intros Etb. rewrite Etb in Htb |- *. exact Htb.
Qed.

(** ** The start of training, and what the callbacks may change *)

Lemma on_train_begin_run (ka : kwargs) (p : Process) :
  exists (t : string) (w' : World),
    generate_tag (outside p) =
    (Returned t, set_drawn (drawn (outside p) + 6) (outside p)) /\
    let s' := set_metrics ("train_loss" :: "valid_loss" :: metrics_names ka)
                (set_tag t (this p)) in
    on_train_begin ka p = (Returned tt, mkProcess s' w') /\
    posts w' = (posts (outside p) ++
                [post_of s' ("*Started training for " ++ str_int (n_epochs ka) ++
                             " epochs*")])%list /\
    last (stdout w') =
    Some ("Slack notification tag: [" ++ name (this p) ++ " " ++ t ++ "]").
Proof.
  destruct (generate_tag_run (outside p)) as (xs & Et & _).
  set (t := string_of_list_ascii xs) in *.
  set (s' := set_metrics ("train_loss" :: "valid_loss" :: metrics_names ka)
               (set_tag t (this p))).
  destruct (_send_run (Text ("*Started training for " ++ str_int (n_epochs ka) ++
                             " epochs*"))
              (mkProcess s' (set_drawn (drawn (outside p) + 6) (outside p))))
    as (w1 & E1 & Hp1 & _).
  exists t, (set_stdout (stdout w1 ++
               ["Slack notification tag: [" ++ name s' ++ " " ++ tag s' ++ "]"]) w1).
  split; [exact Et |]. split.
  - unfold on_train_begin. unfold bind at 1, io at 1. rewrite Et.
    unfold bind at 1, assign at 1. unfold bind at 1, assign at 1.
    cbn [this outside].
    change (set_metrics _ (set_tag t (this p))) with s'.
    unfold bind at 1. rewrite E1.
    unfold bind, self, io, print, modify. reflexivity.
  - cbn [posts set_stdout stdout]. split; [exact Hp1 | apply last_snoc].
Qed.

Lemma on_epoch_end_this (ka : kwargs) (p : Process) :
  this (snd (on_epoch_end ka p)) = this p.
Proof.
  rewrite on_epoch_end_unfold.
  destruct ((0 <? freq (this p)) && ((epoch ka + 1) mod freq (this p) =? 0));
    [apply _send_metrics_this | reflexivity].
Qed.

Lemma on_train_end_this (ka : kwargs) (p : Process) :
  this (snd (on_train_end ka p)) = this p.
Proof.
  destruct (exception ka) as [ex |] eqn:Hex.
  - now destruct (sends_one _ p _ (on_train_end_failure_unfold ka p ex Hex)).
  - rewrite (on_train_end_success_unfold ka p Hex).
    destruct ((freq (this p) =? 0) || (0 <? n_epochs ka mod freq (this p))).
    + apply _send_metrics_this.
    + destruct (_send_run (Lines ["*Training complete*"]) p) as (w' & E & _).
      now rewrite E.
Qed.

(** C8. [on_epoch_end] and [on_train_end] leave every attribute of the
    callback as it was, whatever they are given and whether they return or
    raise. [on_train_begin] keeps [name], [url] and [freq]; it sets [tag] to
    a fresh tag and [metrics] to the two losses followed by the metric
    names. *)
Theorem callbacks_frame (p : Process) (ka : kwargs) :
  this (snd (on_epoch_end ka p)) = this p /\
  this (snd (on_train_end ka p)) = this p /\
  name (this (snd (on_train_begin ka p))) = name (this p) /\
  url (this (snd (on_train_begin ka p))) = url (this p) /\
  freq (this (snd (on_train_begin ka p))) = freq (this p) /\
  metrics (this (snd (on_train_begin ka p))) =
    Some ("train_loss" :: "valid_loss" :: metrics_names ka) /\
  Returned (tag (this (snd (on_train_begin ka p)))) = fst (generate_tag (outside p)).
Proof.
  split; [apply on_epoch_end_this |]. split; [apply on_train_end_this |].
  destruct (on_train_begin_run ka p) as (t & w' & Et & E & _).
  rewrite E, Et. cbn. repeat split.
Qed.

(** X1. [on_train_begin] always returns normally. It draws a fresh tag,
    stores it together with the tracked metric names, posts exactly one
    message, the announcement of the number of epochs under the new
    banner, and prints the tag on the console. *)
Theorem on_train_begin_announces (ka : kwargs) (p : Process) :
  exists t : string,
    fst (generate_tag (outside p)) = Returned t /\
    fst (on_train_begin ka p) = Returned tt /\
    this (snd (on_train_begin ka p)) =
    mkSlackCallback (name (this p)) (freq (this p)) t (url (this p))
      (Some ("train_loss" :: "valid_loss" :: metrics_names ka)) /\
    sent_by (on_train_begin ka) p =
    [(url (this p),
      json_dumps (slack_payload
                    (banner (name (this p)) t ++ "*Started training for " ++
                     str_int (n_epochs ka) ++ " epochs*")))] /\
    last (stdout (outside (snd (on_train_begin ka p)))) =
    Some ("Slack notification tag: [" ++ name (this p) ++ " " ++ t ++ "]").
Proof.
  destruct (on_train_begin_run ka p) as (t & w' & Et & E & Hp & Hout).
  exists t. rewrite E, Et. cbn [fst snd this outside].
  split; [reflexivity |]. split; [reflexivity |]. split; [reflexivity |].
  split; [| exact Hout].
  apply sent_by_posts. rewrite E. exact Hp.
Qed.

(** X2. Whatever the network answers, a refusal, an error status or
    nothing at all, no callback of a well-formed run raises: a failed
    notification never reaches the training loop. *)
Theorem callbacks_never_raise (ev : event) (p : Process) :
  well_formed ev p -> fire ev p = (Returned tt, snd (fire ev p)).
Proof.
  destruct ev as [ka | ka | ka]; cbn [fire well_formed].
  - intros _. destruct (on_train_begin_run ka p) as (t & w' & _ & E & _).
    now rewrite E.
  - intros (names & Hm & Hlen). destruct (due_dec (this p) ka) as [Hd | Hnd].
    + now destruct (sends_one _ p _ (on_epoch_end_report ka p names Hm Hlen Hd)).
    + now rewrite on_epoch_end_idle.
  - intros (names & Hm & Hlen). destruct (exception ka) as [ex |] eqn:Hex.
    + now destruct (sends_one _ p _ (on_train_end_failure_unfold ka p ex Hex)).
    + destruct (final_report_dec (this p) ka) as [Hf | Hnf].
      * now destruct (sends_one _ p _ (on_train_end_final ka p names Hex Hm Hlen Hf)).
      * now destruct (sends_one _ p _ (on_train_end_bare ka p Hex Hnf)).
Qed.

(** ** The banner *)

Lemma bannered_app url name only a b :
  bannered url name only a -> bannered url name only b ->
  bannered url name only (a ++ b).
Proof. unfold bannered. intros Ha Hb. apply Forall_app. now split. Qed.

Lemma bannered_any url name only new :
  bannered url name only new -> bannered url name None new.
Proof.
  unfold bannered. intros HF. eapply Forall_impl; [exact HF |].
  intros post (t & body & -> & _).
  exists t, body. split; [reflexivity | discriminate].
Qed.

(** One callback: what it sends carries the banner of the callback's name
    and of the tag the callback has when it is done. *)
Lemma fire_bannered (ev : event) (p : Process) :
  let p' := snd (fire ev p) in
  name (this p') = name (this p) /\ url (this p') = url (this p) /\
  (is_begin ev = false -> tag (this p') = tag (this p)) /\
  exists new,
    posts (outside p') = (posts (outside p) ++ new)%list /\
    bannered (url (this p)) (name (this p)) (Some (tag (this p'))) new.
Proof.
  assert (Hone : forall s body,
             bannered (url s) (name s) (Some (tag s)) [post_of s body]).
  { intros s body. repeat constructor. exists (tag s), body.
    split; [reflexivity | now intros t0 [= <-]]. }
  assert (Hall : forall s new,
             Forall (fun post => exists body, post = post_of s body) new ->
             bannered (url s) (name s) (Some (tag s)) new).
  { intros s new HF. eapply Forall_impl; [exact HF |]. intros post [body ->].
    exists (tag s), body. split; [reflexivity | now intros t0 [= <-]]. }
  destruct ev as [ka | ka | ka]; cbn [fire is_begin].
  - destruct (on_train_begin_run ka p) as (t & w' & _ & E & Hp & _).
    rewrite E. cbn [snd this outside]. repeat split; [discriminate |].
    eexists. split; [exact Hp |]. apply (Hone (set_metrics _ (set_tag t (this p)))).
  - rewrite (on_epoch_end_this ka p). repeat split.
    rewrite on_epoch_end_unfold.
    destruct ((0 <? freq (this p)) && ((epoch ka + 1) mod freq (this p) =? 0)).
    + destruct (_send_metrics_this ka None p) as (_ & new & Hp & Hnew).
      exists new. split; [exact Hp | now apply Hall].
    + exists []. cbn. rewrite app_nil_r. split; [reflexivity | constructor].
  - rewrite (on_train_end_this ka p). repeat split.
    destruct (exception ka) as [ex |] eqn:Hex.
    + rewrite (on_train_end_failure_unfold ka p ex Hex).
      destruct (_send_run (Lines ["*Training failed with exception:";
                                  "`" ++ str_exn ex ++ "`";
                                  traceback_block (outside p)]) p) as (w' & E & Hp & _).
      rewrite E. eexists. split; [exact Hp | apply Hone].
    + rewrite (on_train_end_success_unfold ka p Hex).
      destruct ((freq (this p) =? 0) || (0 <? n_epochs ka mod freq (this p))).
      * destruct (_send_metrics_this ka (Some ["*Training complete*"]) p)
          as (_ & new & Hp & Hnew).
        exists new. split; [exact Hp | now apply Hall].
      * destruct (_send_run (Lines ["*Training complete*"]) p) as (w' & E & Hp & _).
        rewrite E. eexists. split; [exact Hp | apply Hone].
Qed.

Lemma run_bannered (evs : list event) (p : Process) :
  exists new,
    posts (outside (snd (run evs p))) = (posts (outside p) ++ new)%list /\
    bannered (url (this p)) (name (this p)) None new /\
    (Forall (fun ev => is_begin ev = false) evs ->
     bannered (url (this p)) (name (this p)) (Some (tag (this p))) new).
Proof.
  revert p. induction evs as [| ev rest IH]; intros p.
  - exists []. cbn. rewrite app_nil_r. repeat split; intros; constructor.
  - pose proof (fire_bannered ev p) as Hfire. cbn [run]. unfold bind.
    destruct (fire ev p) as [[[] | e] p1]; cbn [snd] in Hfire |- *;
      destruct Hfire as (Hname & Hurl & Htag & new1 & Hp1 & Hb1).
    + destruct (IH p1) as (new2 & Hp2 & Hb2 & Hb2').
      rewrite Hname, Hurl in Hb2, Hb2'.
      exists (app new1 new2). rewrite Hp2, Hp1, <- app_assoc.
      split; [reflexivity |]. split.
      * apply bannered_app; [| exact Hb2].
        now apply (bannered_any _ _ (Some (tag (this p1)))).
      * intros Hno. inversion Hno as [| ? ? Hev Hrest]; subst.
        rewrite <- (Htag Hev). apply bannered_app; [exact Hb1 |].
        now apply Hb2'.
    + exists new1. split; [exact Hp1 |]. split.
      * now apply (bannered_any _ _ (Some (tag (this p1)))).
      * intros Hno. inversion Hno as [| ? ? Hev Hrest]; subst.
        now rewrite <- (Htag Hev).
Qed.






End Callback.

(** ** The callbacks at work on the example run *)

(** Frequency 2, four epochs, second epoch: the report goes out. *)
Lemma on_epoch_end_dispatches_witness :
  sent_by (on_epoch_end (demo_kwargs 1)) (demo_running 2) =
  [post_of (this (demo_running 2))
     (join nl [epoch_line (demo_kwargs 1);
               metrics_table ["train_loss"; "valid_loss"; "accuracy"] (demo_kwargs 1)])].
Proof.
  destruct (on_epoch_end_dispatches_iff_due (demo_running 2) (demo_kwargs 1))
    as (_ & _ & _ & Hrun).
  destruct (Hrun ["train_loss"; "valid_loss"; "accuracy"]) as (_ & Hdue & _).
  - reflexivity.
  - reflexivity.
  - apply Hdue. split; [reflexivity | reflexivity].
Defined.

(** Frequency 0: the end of training brings the one combined message. *)
Lemma on_train_end_success_witness :
  exists text : string,
    fst (on_train_end (demo_kwargs 3) (demo_running 0)) = Returned tt /\
    sent_by (on_train_end (demo_kwargs 3)) (demo_running 0) =
    [post_of (this (demo_running 0)) text] /\
    contains text "Training complete" /\
    (final_report_due (this (demo_running 0)) (demo_kwargs 3) <->
     text = join nl ["*Training complete*"; epoch_line (demo_kwargs 3);
                     metrics_table ["train_loss"; "valid_loss"; "accuracy"]
                       (demo_kwargs 3)]) /\
    (~ final_report_due (this (demo_running 0)) (demo_kwargs 3) <->
     text = "*Training complete*").
Proof.
  apply (on_train_end_success_one_message (demo_running 0) (demo_kwargs 3)
           ["train_loss"; "valid_loss"; "accuracy"]); reflexivity.
Defined.

(** Frequency -3: nothing per epoch, the bare message at the end. *)
Lemma negative_frequency_witness :
  on_epoch_end (demo_kwargs 2) (demo_running (-3)) = (Returned tt, demo_running (-3)) /\
  sent_by (on_train_end (demo_kwargs 3)) (demo_running (-3)) =
  [post_of (this (demo_running (-3))) "*Training complete*"].
Proof.
  destruct (negative_frequency_silent (demo_running (-3)) (demo_kwargs 2)) as (He & _).
  { cbn. lia. }
  destruct (negative_frequency_silent (demo_running (-3)) (demo_kwargs 3))
    as (_ & _ & Ht).
  { cbn. lia. }
  split; [exact He |]. apply Ht. reflexivity.
Defined.

(** A failed run, reported by a callback that never saw training begin. *)
Lemma on_train_end_exception_witness :
  exists text : string,
    sent_by (on_train_end demo_failure) (mkProcess (demo_callback 0) demo_world) =
    [post_of (demo_callback 0) text] /\
    contains text "CUDA out of memory" /\
    contains text "Failed to detect stacktrace".
Proof.
  destruct (on_train_end_reports_exception (mkProcess (demo_callback 0) demo_world)
              demo_failure (RuntimeError "CUDA out of memory"))
    as (text & _ & _ & Hs & _ & Hex & _ & Hnone).
  { reflexivity. }
  exists text. split; [exact Hs |]. split; [exact Hex |].
  apply Hnone. reflexivity.
Defined.



(** With the network down the report is attempted, and training goes on. *)
Lemma callbacks_never_raise_witness :
  fst (fire (EpochEnd (demo_kwargs 1))
         (mkProcess (this (demo_running 2)) demo_offline)) = Returned tt /\
  length (sent_by (fire (EpochEnd (demo_kwargs 1)))
            (mkProcess (this (demo_running 2)) demo_offline)) = 1%nat.
Proof.
  split; [| reflexivity].
  rewrite (callbacks_never_raise (EpochEnd (demo_kwargs 1))
             (mkProcess (this (demo_running 2)) demo_offline)); [reflexivity |].
  exists ["train_loss"; "valid_loss"; "accuracy"]. split; reflexivity.
Defined.

(** Asked for a report before training has begun, the callback has no
    metric names yet; the error escapes and nothing is posted. *)
Example on_epoch_end_before_begin :
  on_epoch_end (demo_kwargs 1) (mkProcess (demo_callback 2) demo_world) =
  (Raised (AttributeError "'SlackCallback' object has no attribute 'metrics'"),
   mkProcess (demo_callback 2) demo_world).
Proof. reflexivity. Qed.

(** A whole run, frequency 2 over four epochs: the start, the epochs
    displayed as 2 and 4, and the bare end. *)
Example run_frequency_two :
  map snd
    (posts (outside (snd (run
       [TrainBegin (demo_kwargs 0); EpochEnd (demo_kwargs 0);
        EpochEnd (demo_kwargs 1); EpochEnd (demo_kwargs 2);
        EpochEnd (demo_kwargs 3); TrainEnd (demo_kwargs 3)]
       (mkProcess (demo_callback 2) demo_world))))) =
  map (fun text => json_dumps (slack_payload (banner "job" "dkry5c" ++ text)))
    ["*Started training for 4 epochs*";
     join nl ["Epoch 2/4"; fence ++ nl ++
              "train_loss  valid_loss  accuracy" ++ nl ++
              "0.5000  0.5000  0.7500" ++ nl ++ fence];
     join nl ["Epoch 4/4"; fence ++ nl ++
              "train_loss  valid_loss  accuracy" ++ nl ++
              "0.5000  0.5000  0.7500" ++ nl ++ fence];
     "*Training complete*"].
Proof. vm_compute. reflexivity. Qed.

(** ** The webhook URL *)

Section Resolver.
Context `{Platform}.

Lemma read_webhook_url_env (check_env help_text : bool) (w : World) (v : string) :
  environ w !! ENV_KEY = Some v ->
  read_webhook_url check_env help_text w = (Returned v, w).
Proof.
  intros Hv. unfold read_webhook_url, bind, get, ret. now rewrite Hv.
Qed.

Lemma read_webhook_url_prompt (check_env help_text : bool) (w : World)
    (line : string) (rest : list string) :
  environ w !! ENV_KEY = None ->
  tty w = line :: rest ->
  exists w', read_webhook_url check_env help_text w = (Returned line, w') /\
             tty w' = rest.
Proof.
  intros Hv Htty.
  unfold read_webhook_url, bind, get, print, getpass, modify, ret.
  rewrite Hv. destruct help_text; cbn; rewrite Htty; eexists; split; reflexivity.
Qed.

(** C4, as the code has it. A non-empty explicit URL is stored unchanged,
    and neither the environment nor the prompt is touched. Without one
    (none, or the empty string) the constructor resolves the URL with
    [read_webhook_url(True, True)]; and [read_webhook_url], asked to check
    the environment, returns the variable's value when it is set, and
    returns the line typed at the prompt when it is not set. *)
Theorem webhook_url_resolution (nm : string) (webhook_url : option string)
    (frequency : Z) (check_env help_text : bool) (w : World) :
  (forall u, webhook_url = Some u -> u <> "" ->
     __init__ nm webhook_url frequency w =
     (Returned (mkSlackCallback nm frequency "" u None), w)) /\
  (webhook_url = None \/ webhook_url = Some "" ->
     __init__ nm webhook_url frequency w =
     (u <- read_webhook_url true true;;
      ret (mkSlackCallback nm frequency "" u None)) w) /\
  (forall v, check_env = true -> environ w !! ENV_KEY = Some v ->
     read_webhook_url check_env help_text w = (Returned v, w)) /\
  (forall line rest, environ w !! ENV_KEY = None -> tty w = line :: rest ->
     exists w', read_webhook_url check_env help_text w = (Returned line, w') /\
                tty w' = rest).
Proof.
  split.
  { intros u -> Hu. unfold __init__, bind, ret, truthy.
    destruct (String.eqb_spec u ""); [contradiction | reflexivity]. }
  split.
  { intros [-> | ->]; reflexivity. }
  split.
  { intros v _ Hv. now apply read_webhook_url_env. }
  intros line rest Hv Htty. now apply read_webhook_url_prompt.
Qed.

End Resolver.

(** An explicit URL that is the empty string is not kept: the constructor
    goes on to the environment and the prompt. *)
Lemma explicit_empty_url_not_kept :
  exists cb w',
    __init__ "job" (Some "") 1 demo_world = (Returned cb, w') /\
    url cb = "https://hooks.example/T0" /\
    url cb <> "".
Proof. eexists _, _. split; [reflexivity |]. split; [reflexivity | discriminate]. Qed.

Lemma webhook_url_resolution_witness :
  __init__ "job" (Some "https://hooks.example/T1") 1 demo_world =
  (Returned (mkSlackCallback "job" 1 "" "https://hooks.example/T1" None), demo_world) /\
  exists w', read_webhook_url true false demo_world =
             (Returned "https://hooks.example/T0", w') /\ tty w' = [].
Proof.
  destruct (webhook_url_resolution "job" (Some "https://hooks.example/T1") 1
              true false demo_world) as (Hexplicit & _ & _ & Hprompt).
  split.
  - apply Hexplicit; [reflexivity | discriminate].
  - apply Hprompt; reflexivity.
Defined.

(** [read_webhook_url] never looks at [check_env]: a set variable is
    returned also when the caller did not ask for it. *)
Lemma read_webhook_url_ignores_check_env (help_text : bool) (w : World) (v : string) :
  environ w !! ENV_KEY = Some v ->
  read_webhook_url false help_text w = (Returned v, w).
Proof. apply read_webhook_url_env. Qed.

Lemma read_webhook_url_ignores_check_env_witness :
  read_webhook_url false false demo_world_env =
  (Returned "https://hooks.example/ENV", demo_world_env).
Proof.
  apply (read_webhook_url_ignores_check_env false demo_world_env). reflexivity.
Defined.

(** * More on the callbacks *)

Section Reports.
Context `{Platform}.

(** ** What is printed *)

Lemma sendNotification_console (url msg : string) (w : World) :
  sendNotification url msg w =
  (Returned (accepted (answer w url msg)),
   set_stdout (stdout w ++ diagnostics (answer w url msg) msg url)
     (set_posts (posts w ++ [(url, json_dumps (slack_payload msg))]) w)).
Proof.
  unfold sendNotification, try_except, requests_post, answer, accepted, diagnostics,
    bind, get, modify, ret, raise, print.
  cbn [fst snd posts set_posts].
  destruct (network w _ url _) as [code content | what].
  - cbn [fst snd]. destruct (code =? 200); cbn [negb].
    + rewrite app_nil_r. reflexivity.
    + unfold set_stdout. cbn. rewrite <- app_assoc. reflexivity.
  - unfold set_stdout. cbn. rewrite <- app_assoc. reflexivity.
Qed.

Lemma app_self_nil {A} (l d : list A) : (l ++ d)%list = l -> d = [].
Proof.
  intros E. apply (f_equal (@length A)) in E. rewrite length_app in E.
  destruct d; [reflexivity | simpl in E; lia].
Qed.

(** X3. [sendNotification] is silent on the console exactly when it returns
    [True]. When the response has another status than 200 it prints two
    lines, the failure line quoting the message and the URL and then the
    response content; when the transport fails it prints the failure line
    and the text of the exception. It touches nothing else of the world:
    environment, terminal, random source and recorded traceback stay as
    they were. *)
Theorem sendNotification_diagnostics (url msg : string) (w : World) :
  let w' := snd (sendNotification url msg w) in
  (fst (sendNotification url msg w) = Returned true <-> stdout w' = stdout w) /\
  (forall code content,
      answer w url msg = Response code content -> code <> 200 ->
      stdout w' = app (stdout w) [failed_line msg url; "Response " ++ content]) /\
  (forall what,
      answer w url msg = Failure what ->
      stdout w' = app (stdout w) [failed_line msg url; what]) /\
  contains (failed_line msg url) msg /\
  contains (failed_line msg url) url /\
  environ w' = environ w /\ tty w' = tty w /\ rng w' = rng w /\
  drawn w' = drawn w /\ last_traceback w' = last_traceback w.
Proof.
  cbv zeta. rewrite sendNotification_console. cbn [fst snd].
  cbn [stdout set_stdout environ tty rng drawn last_traceback set_posts].
  split.
  { unfold accepted, diagnostics. destruct (answer w url msg) as [code content | what].
    - destruct (code =? 200).
      + split; [intros _; apply app_nil_r | reflexivity].
      + split; [discriminate |]. intros E. apply app_self_nil in E. discriminate E.
    - split; [discriminate |]. intros E. apply app_self_nil in E. discriminate E. }
  split.
  { intros code content -> Hne. cbn [diagnostics].
    now rewrite (proj2 (Z.eqb_neq code 200) Hne). }
  split.
  { intros what ->. reflexivity. }
  split.
  { unfold failed_line. exists ("Falied to send notification " ++ dq),
      (dq ++ " to " ++ dq ++ url ++ dq). now rewrite !append_assoc. }
  split.
  { unfold failed_line.
    exists ("Falied to send notification " ++ dq ++ msg ++ dq ++ " to " ++ dq), dq.
    now rewrite !append_assoc. }
  repeat split.
Qed.

Lemma _send_console (msg : message) (p : Process) :
  exists out,
    _send msg p =
    (Returned tt,
     mkProcess (this p)
       (set_stdout (stdout (outside p) ++ out)
          (set_posts (posts (outside p) ++ [post_of (this p) (text_of msg)])
             (outside p)))).
Proof.
  unfold _send, bind, self, io, ret.
  eexists. rewrite sendNotification_console. destruct msg; reflexivity.
Qed.

(** ** When a report cannot be built, and what a callback touches *)

Lemma _send_metrics_missing (ka : kwargs) (msg : option (list string)) (p : Process) :
  metrics (this p) = None ->
  _send_metrics ka msg p =
  (Raised (AttributeError "'SlackCallback' object has no attribute 'metrics'"), p).
Proof.
  intros Hm. unfold _send_metrics, self_metrics, bind, self, ret, raise.
  now rewrite Hm.
Qed.

Lemma _send_metrics_mismatch (ka : kwargs) (msg : option (list string)) (p : Process)
    (names : list string) :
  metrics (this p) = Some names ->
  length names <> S (length (last_metrics ka)) ->
  _send_metrics ka msg p =
  (Raised (ValueError "columns passed do not match the data"), p).
Proof.
  intros Hm Hlen.
  unfold _send_metrics, self_metrics, format_metrics, bind, self, ret, raise.
  rewrite Hm. cbn [length]. rewrite length_map. cbn [length].
  rewrite (proj2 (Nat.eqb_neq _ _) Hlen). reflexivity.
Qed.

Lemma _send_metrics_cases (ka : kwargs) (msg : option (list string)) (p : Process) :
  (exists e, _send_metrics ka msg p = (Raised e, p)) \/
  (exists m, _send_metrics ka msg p = _send m p).
Proof.
  destruct (metrics (this p)) as [names |] eqn:Hm.
  - destruct (decide (length names = S (length (last_metrics ka)))) as [Hlen | Hlen].
    + right. eexists. now apply (_send_metrics_run ka msg p names).
    + left. eexists. now apply (_send_metrics_mismatch ka msg p names).
  - left. eexists. now apply _send_metrics_missing.
Qed.

(** After the start of training a callback either leaves everything as it
    is, or comes down to one [_send]. *)
Lemma fire_cases (ev : event) (p : Process) :
  is_begin ev = false ->
  (exists r, fire ev p = (r, p)) \/ (exists m, fire ev p = _send m p).
Proof.
  destruct ev as [ka | ka | ka]; cbn [fire is_begin]; [discriminate | |]; intros _.
  - rewrite on_epoch_end_unfold.
    destruct ((0 <? freq (this p)) && ((epoch ka + 1) mod freq (this p) =? 0)).
    + destruct (_send_metrics_cases ka None p) as [[e E] | [m E]]; eauto.
    + eauto.
  - destruct (exception ka) as [ex |] eqn:Hex.
    + right. eexists. exact (on_train_end_failure_unfold ka p ex Hex).
    + rewrite (on_train_end_success_unfold ka p Hex).
      destruct ((freq (this p) =? 0) || (0 <? n_epochs ka mod freq (this p))).
      * destruct (_send_metrics_cases ka (Some ["*Training complete*"]) p)
          as [[e E] | [m E]]; eauto.
      * eauto.
Qed.

Lemma on_train_begin_world (ka : kwargs) (p : Process) :
  exists (s' : SlackCallback) (post : string * string) (out : list string),
    fst post = url (this p) /\
    snd (on_train_begin ka p) =
    mkProcess s'
      (set_stdout (stdout (outside p) ++ out)
         (set_posts (posts (outside p) ++ [post])
            (set_drawn (drawn (outside p) + 6) (outside p)))).
Proof.
  destruct (generate_tag_run (outside p)) as (xs & Et & _).
  set (t := string_of_list_ascii xs) in *.
  set (s' := set_metrics ("train_loss" :: "valid_loss" :: metrics_names ka)
               (set_tag t (this p))).
  destruct (_send_console (Text ("*Started training for " ++ str_int (n_epochs ka) ++
                                 " epochs*"))
              (mkProcess s' (set_drawn (drawn (outside p) + 6) (outside p))))
    as (out & E1).
  exists s', (post_of s' ("*Started training for " ++ str_int (n_epochs ka) ++
                          " epochs*")),
    (app out ["Slack notification tag: [" ++ name s' ++ " " ++ tag s' ++ "]"]).
  split; [reflexivity |].
  unfold on_train_begin. unfold bind at 1, io at 1. rewrite Et.
  unfold bind at 1, assign at 1. unfold bind at 1, assign at 1.
  cbn [this outside].
  change (set_metrics _ (set_tag t (this p))) with s'.
  unfold bind at 1. rewrite E1.
  unfold bind, self, io, print, modify, set_stdout. cbn.
  rewrite <- app_assoc. reflexivity.
Qed.

(** X4. A callback never reads the environment or the terminal and never
    changes the network or the recorded traceback. It makes at most one
    POST, to the callback's own URL, after the POSTs already recorded, and
    only adds lines to the console. It draws from the random source only
    in [on_train_begin], six numbers for the tag. All this holds whether
    the callback returns or raises. *)
Theorem callbacks_touch_only_reports (ev : event) (p : Process) :
  only_reports (url (this p)) (outside p) (outside (snd (fire ev p))) /\
  drawn (outside (snd (fire ev p))) =
  (drawn (outside p) + if is_begin ev then 6 else 0)%nat.
Proof.
  assert (Hidle : forall w, only_reports (url (this p)) w w).
  { intros w. unfold only_reports. repeat split.
    - exists []. rewrite app_nil_r. repeat split; [simpl; lia | constructor].
    - exists []. now rewrite app_nil_r. }
  assert (Hsent : forall w post out d,
             fst post = url (this p) ->
             only_reports (url (this p)) w
               (set_stdout (stdout w ++ out)
                  (set_posts (posts w ++ [post]) (set_drawn d w)))).
  { intros w post out d Hpost. unfold only_reports. cbn. repeat split.
    - exists [post]. repeat split; [simpl; lia | now repeat constructor].
    - now exists out. }
  destruct (is_begin ev) eqn:Hev.
  - destruct ev as [ka | ka | ka]; try discriminate Hev. cbn [fire].
    destruct (on_train_begin_world ka p) as (s' & post & out & Hpost & ->).
    cbn [outside]. split; [now apply Hsent | reflexivity].
  - rewrite Nat.add_0_r.
    destruct (fire_cases ev p Hev) as [[r E] | [m E]]; rewrite E.
    + cbn [snd]. split; [apply Hidle | reflexivity].
    + destruct (_send_console m p) as [out ->]. cbn [snd outside]. split.
      * apply (Hsent (outside p) _ out (drawn (outside p))). reflexivity.
      * reflexivity.
Qed.

(** X5. Asked for a metric report before [on_train_begin] has ever
    run, the callback has no metric names: [on_epoch_end], when a report is
    due, and [on_train_end] without an exception, when the final report is
    due (as with frequency 0), raise [AttributeError]; nothing is posted
    and nothing changes. *)
Theorem report_before_training_begins (p : Process) (ka : kwargs) :
  metrics (this p) = None ->
  let missing := AttributeError "'SlackCallback' object has no attribute 'metrics'" in
  (due (this p) ka -> on_epoch_end ka p = (Raised missing, p)) /\
  (exception ka = None -> final_report_due (this p) ka ->
   on_train_end ka p = (Raised missing, p)) /\
  (exception ka = None -> freq (this p) = 0 ->
   on_train_end ka p = (Raised missing, p) /\ sent_by (on_train_end ka) p = []).
Proof.
  intros Hm missing.
  assert (Hend : exception ka = None -> final_report_due (this p) ka ->
                 on_train_end ka p = (Raised missing, p)).
  { intros Hex Hf. apply final_iff in Hf.
    rewrite (on_train_end_success_unfold ka p Hex), Hf.
    now apply _send_metrics_missing. }
  split.
  { intros Hd. apply due_iff in Hd. rewrite on_epoch_end_unfold, Hd.
    now apply _send_metrics_missing. }
  split; [exact Hend |].
  intros Hex Hf.
  assert (E : on_train_end ka p = (Raised missing, p)).
  { apply Hend; [exact Hex | now left]. }
  split; [exact E |]. now apply (sent_by_nothing _ _ _ E).
Qed.

(** X6. When the training loop brings another number of values than
    there are tracked names, the table cannot be built: a due per-epoch
    report and a due final report raise instead of posting, and leave
    callback and world as they were. *)
Theorem mismatched_metrics_not_sent (p : Process) (ka : kwargs) (names : list string) :
  metrics (this p) = Some names ->
  length names <> S (length (last_metrics ka)) ->
  (due (this p) ka -> exists e, on_epoch_end ka p = (Raised e, p)) /\
  (exception ka = None -> final_report_due (this p) ka ->
   exists e, on_train_end ka p = (Raised e, p)).
Proof.
  intros Hm Hlen. split.
  - intros Hd. apply due_iff in Hd. rewrite on_epoch_end_unfold, Hd.
    eexists. now apply (_send_metrics_mismatch ka None p names).
  - intros Hex Hf. apply final_iff in Hf.
    rewrite (on_train_end_success_unfold ka p Hex), Hf.
    eexists. now apply (_send_metrics_mismatch ka _ p names).
Qed.

Lemma _send_metrics_raises (ka : kwargs) (msg : option (list string)) (p : Process)
    (e : pyexn) :
  fst (_send_metrics ka msg p) = Raised e ->
  snd (_send_metrics ka msg p) = p /\
  e <> ZeroDivisionError /\
  (metrics (this p) = None /\
   e = AttributeError "'SlackCallback' object has no attribute 'metrics'" \/
   exists names, metrics (this p) = Some names /\
                 length names <> S (length (last_metrics ka))).
Proof.
  destruct (metrics (this p)) as [names |] eqn:Hm.
  - destruct (decide (length names = S (length (last_metrics ka)))) as [Hlen | Hlen].
    + rewrite (_send_metrics_run ka msg p names Hm Hlen).
      destruct (_send_run (Lines (lines_of msg ++
                                  [epoch_line ka; metrics_table names ka])) p)
        as (w' & -> & _).
      discriminate.
    + rewrite (_send_metrics_mismatch ka msg p names Hm Hlen). cbn [fst snd].
      intros [= <-]. split; [reflexivity |]. split; [discriminate |].
      right. now exists names.
  - rewrite (_send_metrics_missing ka msg p Hm). cbn [fst snd].
    intros [= <-]. split; [reflexivity |]. split; [discriminate |]. now left.
Qed.

(** X7. A callback raises only when it is asked for a metric report it
    cannot build: before [on_train_begin] has stored the metric names (an
    [AttributeError]), or with another number of values than names.
    Nothing else makes it raise: not the network, and not a frequency of
    zero, which never leads to a division. When it raises it has posted
    nothing and changed nothing; [on_train_begin] never raises, and
    [on_train_end] given an exception never raises either. *)
Theorem callbacks_raise_only_for_metrics (ev : event) (p : Process) (e : pyexn) :
  fst (fire ev p) = Raised e ->
  snd (fire ev p) = p /\
  e <> ZeroDivisionError /\
  (exists ka, (ev = EpochEnd ka /\ due (this p) ka \/
               ev = TrainEnd ka /\ exception ka = None /\
               final_report_due (this p) ka) /\
              (metrics (this p) = None /\
               e = AttributeError "'SlackCallback' object has no attribute 'metrics'" \/
               exists names, metrics (this p) = Some names /\
                             length names <> S (length (last_metrics ka)))).
Proof.
  destruct ev as [ka | ka | ka]; cbn [fire].
  - destruct (on_train_begin_run ka p) as (t & w' & _ & E & _). rewrite E.
    discriminate.
  - rewrite on_epoch_end_unfold.
    destruct ((0 <? freq (this p)) && ((epoch ka + 1) mod freq (this p) =? 0))
      eqn:Eb; [| discriminate].
    apply due_iff in Eb. intros Hr.
    destruct (_send_metrics_raises ka None p e Hr) as (Hp & Hz & Hwhy).
    split; [exact Hp |]. split; [exact Hz |]. exists ka. split; [| exact Hwhy].
    left. now split.
  - destruct (exception ka) as [ex |] eqn:Hex.
    + rewrite (on_train_end_failure_unfold ka p ex Hex).
      destruct (_send_run (Lines ["*Training failed with exception:";
                                  "`" ++ str_exn ex ++ "`";
                                  traceback_block (outside p)]) p) as (w' & -> & _).
      discriminate.
    + rewrite (on_train_end_success_unfold ka p Hex).
      destruct ((freq (this p) =? 0) || (0 <? n_epochs ka mod freq (this p)))
        eqn:Eb.
      * apply final_iff in Eb. intros Hr.
        destruct (_send_metrics_raises ka _ p e Hr) as (Hp & Hz & Hwhy).
        split; [exact Hp |]. split; [exact Hz |]. exists ka. split; [| exact Hwhy].
        right. now split.
      * destruct (_send_run (Lines ["*Training complete*"]) p) as (w' & -> & _).
        discriminate.
Qed.

(** ** Whole runs *)

Lemma then_sent (m k : M Process unit) (p : Process) (a b : list (string * string)) :
  m p = (Returned tt, snd (m p)) ->
  sent_by m p = a ->
  posts (outside (snd (k (snd (m p))))) = (posts (outside (snd (m p))) ++ b)%list ->
  (exists new, posts (outside (snd (m p))) = (posts (outside p) ++ new)%list) ->
  sent_by (m;;; k) p = (a ++ b)%list.
Proof.
  intros Em Ha Hb [new Hnew]. apply sent_by_posts.
  unfold bind. rewrite Em. rewrite Hb.
  unfold sent_by in Ha. rewrite Hnew, drop_app_length in Ha. subst new.
  rewrite Hnew. now rewrite <- app_assoc.
Qed.

Lemma _send_posts (msg : message) (p : Process) :
  _send msg p = (Returned tt, snd (_send msg p)) /\
  this (snd (_send msg p)) = this p /\
  posts (outside (snd (_send msg p))) =
  (posts (outside p) ++ [post_of (this p) (text_of msg)])%list.
Proof.
  destruct (_send_run msg p) as (w' & E & Hp & _). rewrite E. cbn. auto.
Qed.

(** X8. The metrics of the last epoch go out exactly once. With a
    frequency of zero or more, once training has begun and with one value
    per tracked name, the last [on_epoch_end] (epoch [n_epochs - 1])
    followed by [on_train_end] without an exception either posts the
    epoch report and then the bare "Training complete" (the frequency
    divides the number of epochs), or posts nothing for the epoch and then
    "Training complete" together with the same epoch line and table. *)
Theorem final_metrics_sent_once (p : Process) (ka : kwargs) (names : list string) :
  0 <= freq (this p) ->
  exception ka = None ->
  epoch ka + 1 = n_epochs ka ->
  metrics (this p) = Some names ->
  length names = S (length (last_metrics ka)) ->
  let report := join nl [epoch_line ka; metrics_table names ka] in
  fst ((on_epoch_end ka;;; on_train_end ka) p) = Returned tt /\
  epoch_line ka =
  "Epoch " ++ str_int (n_epochs ka) ++ "/" ++ str_int (n_epochs ka) /\
  (due (this p) ka /\
   sent_by (on_epoch_end ka;;; on_train_end ka) p =
   [post_of (this p) report; post_of (this p) "*Training complete*"]
   \/
   ~ due (this p) ka /\
   sent_by (on_epoch_end ka;;; on_train_end ka) p =
   [post_of (this p) ("*Training complete*" ++ nl ++ report)]).
Proof.
  intros Hfreq Hex Hlast Hm Hlen report.
  assert (Hline : epoch_line ka =
                  "Epoch " ++ str_int (n_epochs ka) ++ "/" ++ str_int (n_epochs ka)).
  { unfold epoch_line. now rewrite Hlast, Z.min_id. }
  destruct (due_dec (this p) ka) as [Hd | Hnd].
  - pose proof (on_epoch_end_report ka p names Hm Hlen Hd) as E1.
    destruct (_send_posts (Lines [epoch_line ka; metrics_table names ka]) p)
      as (Er1 & Et1 & Ep1).
    rewrite <- E1 in Er1, Et1, Ep1.
    set (p1 := snd (on_epoch_end ka p)) in *.
    assert (Hnf : ~ final_report_due (this p1) ka).
    { rewrite Et1. destruct Hd as [Hpos Hmod]. rewrite Hlast in Hmod.
      unfold final_report_due. lia. }
    pose proof (on_train_end_bare ka p1 Hex Hnf) as E2.
    destruct (_send_posts (Lines ["*Training complete*"]) p1) as (Er2 & Et2 & Ep2).
    rewrite <- E2 in Er2, Et2, Ep2. rewrite Et1 in Ep2.
    split; [| split; [exact Hline |]].
    + unfold bind. rewrite Er1. fold p1. now rewrite Er2.
    + left. split; [exact Hd |].
      apply (then_sent (on_epoch_end ka) (on_train_end ka) p
               [post_of (this p) report] [post_of (this p) "*Training complete*"]).
      * exact Er1.
      * apply sent_by_posts. exact Ep1.
      * exact Ep2.
      * eexists. exact Ep1.
  - pose proof (on_epoch_end_idle ka p Hnd) as E1.
    assert (Hf : final_report_due (this p) ka).
    { unfold final_report_due. unfold due in Hnd. rewrite Hlast in Hnd.
      destruct (Z.eq_dec (freq (this p)) 0) as [E0 | Hne]; [now left | right].
      pose proof (Z.mod_pos_bound (n_epochs ka) (freq (this p))). lia. }
    pose proof (on_train_end_final ka p names Hex Hm Hlen Hf) as E2.
    destruct (_send_posts (Lines ["*Training complete*"; epoch_line ka;
                                  metrics_table names ka]) p) as (Er2 & Et2 & Ep2).
    rewrite <- E2 in Er2, Et2, Ep2.
    split; [| split; [exact Hline |]].
    + unfold bind. rewrite E1. now rewrite Er2.
    + right. split; [exact Hnd |].
      apply sent_by_posts. unfold bind. rewrite E1. exact Ep2.
Qed.

Lemma run_this (evs : list event) (p : Process) :
  Forall (fun ev => is_begin ev = false) evs ->
  this (snd (run evs p)) = this p.
Proof.
  revert p. induction evs as [| ev rest IH]; intros p Hno; [reflexivity |].
  inversion Hno as [| ? ? Hev Hrest]; subst.
  assert (Hthis : this (snd (fire ev p)) = this p).
  { destruct ev as [ka | ka | ka]; [discriminate Hev | |]; cbn [fire].
    - apply on_epoch_end_this.
    - apply on_train_end_this. }
  cbn [run]. unfold bind.
  destruct (fire ev p) as [[[] | e] p1]; cbn [snd] in Hthis |- *.
  - rewrite (IH p1 Hrest). exact Hthis.
  - exact Hthis.
Qed.

(** X9. One run, one tag. From an [on_train_begin] on, and until the next
    one, every message the callbacks post carries the tag drawn by that
    [on_train_begin]: the announcement itself, which is always posted, and
    whatever the later callbacks send; the callback still holds that tag
    at the end. *)
Theorem one_tag_per_run (ka : kwargs) (rest : list event) (p : Process) :
  Forall (fun ev => is_begin ev = false) rest ->
  exists (t : string) (later : list (string * string)),
    fst (generate_tag (outside p)) = Returned t /\
    sent_by (run (TrainBegin ka :: rest)) p =
    ((url (this p),
      json_dumps (slack_payload
                    (banner (name (this p)) t ++ "*Started training for " ++
                     str_int (n_epochs ka) ++ " epochs*"))) :: later) /\
    bannered (url (this p)) (name (this p)) (Some t) later /\
    tag (this (snd (run (TrainBegin ka :: rest) p))) = t.
Proof.
  intros Hno.
  destruct (on_train_begin_run ka p) as (t & w' & Et & E & Hp & _).
  cbv zeta in E, Hp.
  set (s' := set_metrics ("train_loss" :: "valid_loss" :: metrics_names ka)
               (set_tag t (this p))) in *.
  destruct (run_bannered rest (mkProcess s' w')) as (later & Hlater & _ & Hb).
  specialize (Hb Hno). cbn [this outside] in Hlater, Hb.
  assert (Erun : run (TrainBegin ka :: rest) p = run rest (mkProcess s' w')).
  { cbn [run fire]. unfold bind. now rewrite E. }
  exists t, later. split; [now rewrite Et |].
  split; [| split].
  - apply sent_by_posts. rewrite Erun, Hlater, Hp.
    rewrite <- app_assoc. reflexivity.
  - exact Hb.
  - now rewrite Erun, (run_this rest _ Hno).
Qed.


Lemma run_app (a b : list event) (p : Process) :
  run (a ++ b) p = (run a;;; run b) p.
Proof.
  revert p. induction a as [| ev a IH]; intros p; [reflexivity |].
  change (run ((ev :: a) ++ b) p) with ((fire ev;;; run (a ++ b)) p).
  cbn [run]. unfold bind. destruct (fire ev p) as [[[] | e] p1]; [| reflexivity].
  rewrite IH. reflexivity.
Qed.

Lemma on_train_end_one (ka : kwargs) (p : Process) (names : list string) :
  metrics (this p) = Some names ->
  length names = S (length (last_metrics ka)) ->
  exists post,
    on_train_end ka p = (Returned tt, snd (on_train_end ka p)) /\
    posts (outside (snd (on_train_end ka p))) = (posts (outside p) ++ [post])%list.
Proof.
  intros Hm Hlen.
  assert (Hone : forall m, on_train_end ka p = _send m p ->
            exists post,
              on_train_end ka p = (Returned tt, snd (on_train_end ka p)) /\
              posts (outside (snd (on_train_end ka p))) =
              (posts (outside p) ++ [post])%list).
  { intros m E. destruct (_send_posts m p) as (Er & _ & Ep).
    rewrite <- E in Er, Ep. eauto. }
  destruct (exception ka) as [ex |] eqn:Hex.
  - eapply Hone. exact (on_train_end_failure_unfold ka p ex Hex).
  - destruct (final_report_dec (this p) ka) as [Hf | Hnf].
    + eapply Hone. exact (on_train_end_final ka p names Hex Hm Hlen Hf).
    + eapply Hone. exact (on_train_end_bare ka p Hex Hnf).
Qed.

Lemma reports_in_step (frequency : Z) (k : nat) :
  reports_in frequency (Z.of_nat (S k)) =
  Nat.add (reports_in frequency (Z.of_nat k))
    (if (0 <? frequency) && ((Z.of_nat k + 1) mod frequency =? 0)
     then 1%nat else 0%nat).
Proof.
  unfold reports_in. destruct (Z.ltb_spec 0 frequency) as [Hpos | Hle];
    [| reflexivity].
  cbn [andb]. rewrite Nat2Z.inj_succ, <- Z.add_1_r.
  set (n := Z.of_nat k). assert (Hn : 0 <= n) by lia.
  pose proof (Z.div_mod n frequency ltac:(lia)) as Hdm.
  pose proof (Z.mod_pos_bound n frequency Hpos) as Hr.
  pose proof (Z.div_pos n frequency Hn Hpos) as Hq.
  destruct (Z.eq_dec (n mod frequency + 1) frequency) as [Efull | Hnot].
  - assert (Ediv : (n + 1) / frequency = n / frequency + 1).
    { symmetry. apply (Z.div_unique (n + 1) frequency (n / frequency + 1) 0); lia. }
    assert (Emod : (n + 1) mod frequency = 0).
    { symmetry. apply (Z.mod_unique (n + 1) frequency (n / frequency + 1) 0); lia. }
    rewrite Ediv, Emod. cbn. lia.
  - assert (Ediv : (n + 1) / frequency = n / frequency).
    { symmetry.
      apply (Z.div_unique (n + 1) frequency (n / frequency) (n mod frequency + 1)); lia. }
    assert (Emod : (n + 1) mod frequency = n mod frequency + 1).
    { symmetry.
      apply (Z.mod_unique (n + 1) frequency (n / frequency) (n mod frequency + 1)); lia. }
    rewrite Ediv, Emod.
    destruct (Z.eqb_spec (n mod frequency + 1) 0); lia.
Qed.

Lemma epochs_run (names : list string) (epochs : list kwargs) (k : nat) (p : Process) :
  metrics (this p) = Some names ->
  map epoch epochs = map Z.of_nat (seq k (length epochs)) ->
  Forall (fun ka => length names = S (length (last_metrics ka))) epochs ->
  exists p' new,
    run (map EpochEnd epochs) p = (Returned tt, p') /\
    this p' = this p /\
    posts (outside p') = (posts (outside p) ++ new)%list /\
    (reports_in (freq (this p)) (Z.of_nat k) + length new =
     reports_in (freq (this p)) (Z.of_nat (k + length epochs)))%nat.
Proof.
  revert k p. induction epochs as [| ka rest IH]; intros k p Hm Hnum Hall.
  - exists p, []. cbn. rewrite app_nil_r, !Nat.add_0_r. auto.
  - cbn [length seq map] in Hnum. injection Hnum as Hk Hrest.
    inversion Hall as [| ? ? Hlen Hall']; subst.
    assert (Hfire : exists p1 new1,
               on_epoch_end ka p = (Returned tt, p1) /\ this p1 = this p /\
               posts (outside p1) = (posts (outside p) ++ new1)%list /\
               length new1 =
               if (0 <? freq (this p)) && ((Z.of_nat k + 1) mod freq (this p) =? 0)
               then 1%nat else 0%nat).
    { rewrite <- Hk.
      destruct ((0 <? freq (this p)) && ((epoch ka + 1) mod freq (this p) =? 0))
        eqn:Eb.
      - apply due_iff in Eb.
        pose proof (on_epoch_end_report ka p names Hm Hlen Eb) as E.
        destruct (_send_posts (Lines [epoch_line ka; metrics_table names ka]) p)
          as (Er & Et & Ep).
        rewrite <- E in Er, Et, Ep. eexists _, _. eauto.
      - exists p, []. rewrite app_nil_r. repeat split.
        apply on_epoch_end_idle. intros Hd. apply due_iff in Hd. congruence. }
    destruct Hfire as (p1 & new1 & E1 & Et1 & Ep1 & Hn1).
    destruct (IH (S k) p1) as (p' & new & E' & Et' & Ep' & Hn');
      [now rewrite Et1 | exact Hrest | exact Hall' |].
    exists p', (app new1 new). cbn [map run fire]. unfold bind at 1. rewrite E1.
    split; [exact E' |]. split; [now rewrite Et', Et1 |].
    split; [now rewrite Ep', Ep1, <- app_assoc |].
    rewrite Et1 in Hn'. rewrite reports_in_step in Hn'.
    rewrite length_app. cbn [length]. rewrite <- Nat.add_succ_comm, <- Hn', Hn1. lia.
Qed.

(** X10. How many messages a run brings. Training begins, the epochs
    0, 1, ..., n-1 end one after the other, each bringing one value per
    tracked name, and training ends, with or without an exception: then no
    callback raises, and the run posts the announcement, one report for
    each of the epochs 1 .. n (counted from one) that the frequency divides
    when the frequency is positive, none otherwise, and one closing
    message. *)
Theorem messages_of_a_run (p : Process) (start finish : kwargs) (epochs : list kwargs) :
  map epoch epochs = map Z.of_nat (seq 0 (length epochs)) ->
  Forall (fun ka => length (last_metrics ka) = S (length (metrics_names start)))
    (epochs ++ [finish]) ->
  let evs := (TrainBegin start :: map EpochEnd epochs ++ [TrainEnd finish])%list in
  fst (run evs p) = Returned tt /\
  length (sent_by (run evs) p) =
  (1 + reports_in (freq (this p)) (Z.of_nat (length epochs)) + 1)%nat.
Proof.
  intros Hnum Hall evs.
  apply Forall_app in Hall. destruct Hall as [Hepochs Hfinish].
  inversion Hfinish as [| ? ? Hlast _]; subst.
  destruct (on_train_begin_run start p) as (t & w1 & _ & E0 & Hp0 & _).
  cbv zeta in E0, Hp0.
  set (names := "train_loss" :: "valid_loss" :: metrics_names start) in *.
  set (s' := set_metrics names (set_tag t (this p))) in *.
  assert (Hnames : forall ka,
             length (last_metrics ka) = S (length (metrics_names start)) ->
             length names = S (length (last_metrics ka))).
  { intros ka Hka. subst names. cbn [length]. now rewrite Hka. }
  destruct (epochs_run names epochs 0 (mkProcess s' w1)) as (p2 & new & E1 & Et1 & Ep1 & Hn1).
  { reflexivity. }
  { exact Hnum. }
  { eapply Forall_impl; [exact Hepochs |]. exact Hnames. }
  cbn [this outside] in Et1, Ep1, Hn1.
  change (freq s') with (freq (this p)) in Hn1.
  destruct (on_train_end_one finish p2 names) as (post & E2 & Ep2).
  { now rewrite Et1. }
  { now apply Hnames. }
  assert (Erun : run evs p = (Returned tt, snd (on_train_end finish p2))).
  { subst evs. cbn [run fire]. unfold bind at 1. rewrite E0.
    rewrite run_app. unfold bind at 1. rewrite E1.
    cbn [run fire]. unfold bind, ret. now rewrite E2. }
  split; [now rewrite Erun |].
  rewrite (sent_by_posts (run evs) p
             (post_of s' ("*Started training for " ++ str_int (n_epochs start) ++
                          " epochs*") :: app new [post])).
  - cbn [length]. rewrite length_app. cbn [length].
    assert (H0 : reports_in (freq (this p)) (Z.of_nat 0) = 0%nat).
    { unfold reports_in. now destruct (0 <? freq (this p)). }
    rewrite H0 in Hn1. cbn [Nat.add] in Hn1. rewrite <- Hn1. lia.
  - rewrite Erun. cbn [snd]. rewrite Ep2, Ep1, Hp0.
    rewrite <- !app_assoc. reflexivity.
Qed.

End Reports.

(** ** The constructor *)

Lemma __init___prompt (nm : string) (frequency : Z) (w : World) :
  (u <- read_webhook_url true true;; ret (mkSlackCallback nm frequency "" u None)) w =
  match environ w !! ENV_KEY with
  | Some v => (Returned (mkSlackCallback nm frequency "" v None), w)
  | None =>
      let w1 := set_stdout (stdout w ++ [help_message; "Enter webhook URL:"]) w in
      match tty w with
      | [] => (Raised EOFError, w1)
      | line :: rest =>
          (Returned (mkSlackCallback nm frequency "" line None), set_tty rest w1)
      end
  end.
Proof.
  unfold read_webhook_url, bind, get, print, getpass, modify, ret, raise.
  destruct (environ w !! ENV_KEY); [reflexivity |].
  cbn. destruct (tty w); unfold set_stdout, set_tty; cbn; rewrite <- app_assoc;
    reflexivity.
Qed.

(** X11. Constructing a callback never posts anything, draws no random
    number and leaves the environment alone. It fails exactly when no URL
    can be had: no explicit URL (or an empty one), the variable not set and
    nothing typed at the prompt; the [EOFError] of the prompt then escapes
    and no callback is made. Otherwise it makes a callback with the given
    name and frequency, an empty tag and no metric names. A set variable
    wins over the prompt: nothing is printed and the terminal is not read.
    With the variable not set, the help text and the prompt are printed and
    one line of input is taken. *)
Theorem constructor_needs_a_url (nm : string) (webhook_url : option string)
    (frequency : Z) (w : World) :
  let made := __init__ nm webhook_url frequency w in
  (posts (snd made) = posts w /\ drawn (snd made) = drawn w /\
   environ (snd made) = environ w) /\
  (fst made = Raised EOFError <->
   (webhook_url = None \/ webhook_url = Some "") /\
   environ w !! ENV_KEY = None /\ tty w = []) /\
  (fst made = Raised EOFError \/
   exists u, fst made = Returned (mkSlackCallback nm frequency "" u None)) /\
  (forall v,
      webhook_url = None \/ webhook_url = Some "" ->
      environ w !! ENV_KEY = Some v ->
      made = (Returned (mkSlackCallback nm frequency "" v None), w)) /\
  (webhook_url = None \/ webhook_url = Some "" ->
   environ w !! ENV_KEY = None ->
   stdout (snd made) = app (stdout w) [help_message; "Enter webhook URL:"] /\
   tty (snd made) = tail (tty w)).
Proof.
  cbv zeta.
  assert (Hkept : forall u, u <> "" ->
            __init__ nm (Some u) frequency w =
            (Returned (mkSlackCallback nm frequency "" u None), w)).
  { intros u Hu. unfold __init__, bind, ret, truthy.
    destruct (String.eqb_spec u ""); [contradiction | reflexivity]. }
  assert (Hasked : webhook_url = None \/ webhook_url = Some "" ->
            __init__ nm webhook_url frequency w =
            (u <- read_webhook_url true true;;
             ret (mkSlackCallback nm frequency "" u None)) w).
  { intros [-> | ->]; reflexivity. }
  assert (Hcases : (exists u, webhook_url = Some u /\ u <> "") \/
                   (webhook_url = None \/ webhook_url = Some "")).
  { destruct webhook_url as [u |]; [| auto].
    destruct (String.eqb_spec u "") as [-> | Hu]; eauto. }
  destruct Hcases as [(u & -> & Hu) | Hnone].
  - rewrite (Hkept u Hu). cbn [fst snd].
    assert (Hnot : ~ (Some u = None \/ Some u = Some "")).
    { intros [Hn | Hs]; [discriminate | injection Hs as ->; contradiction]. }
    split; [auto |]. split.
    { split; [discriminate |]. intros (Hor & _). contradiction. }
    split; [right; eauto |].
    split; [intros v Hor | intros Hor]; contradiction.
  - rewrite (Hasked Hnone), __init___prompt.
    destruct (environ w !! ENV_KEY) as [v |] eqn:Hv.
    + cbn [fst snd]. split; [auto |]. split.
      { split; [discriminate |]. intros (_ & [=] & _). }
      split; [right; eauto |].
      split; [now intros v0 _ [= ->] | discriminate].
    + cbv zeta. destruct (tty w) as [| line rest] eqn:Htty; cbn.
      * split; [auto |]. split; [tauto |]. split; [now left |].
        split; [discriminate | auto].
      * split; [auto |]. split.
        { split; [discriminate |]. intros (_ & _ & [=]). }
        split; [right; eauto |].
        split; [discriminate | auto].
Qed.

(** ** Which tags there are *)

Lemma index_of_alphabet (c : ascii) :
  tag_char c = true ->
  alphabet !! (index_of c alphabet mod length alphabet)%nat = Some c.
Proof.
  destruct c as [[] [] [] [] [] [] [] []]; intros Ht; vm_compute in Ht;
    first [discriminate Ht | vm_compute; reflexivity].
Qed.

Lemma replicateM_choice_exact {A} (seq xs : list A) (w : World) :
  (forall i x, xs !! i = Some x ->
               seq !! (rng w (drawn w + i) mod length seq)%nat = Some x) ->
  replicateM (length xs) (random_choice seq) w =
  (Returned xs, set_drawn (drawn w + length xs) w).
Proof.
  revert w. induction xs as [| x xs IH]; intros w Hpick.
  - cbn. unfold ret, set_drawn. rewrite Nat.add_0_r. now destruct w.
  - cbn [length replicateM]. unfold bind at 1.
    pose proof (Hpick O x eq_refl) as H0. rewrite Nat.add_0_r in H0.
    unfold random_choice at 1, bind at 1, get. rewrite H0.
    unfold bind at 1, modify, ret. unfold bind at 1.
    rewrite IH.
    + unfold set_drawn. cbn. do 2 f_equal. lia.
    + intros i y Hy. cbn [rng drawn set_drawn].
      replace (S (drawn w) + i)%nat with (drawn w + S i)%nat by lia.
      now apply Hpick.
Qed.

(** X12. The tags [generate_tag] can return are exactly the strings of six
    characters, each a lowercase ASCII letter or a decimal digit: every
    one of them comes out for some state of the random source, and nothing
    else ever does. *)
Theorem generate_tag_range (t : string) :
  (exists w, fst (generate_tag w) = Returned t) <->
  String.length t = 6%nat /\
  Forall (fun c => tag_char c = true) (list_ascii_of_string t).
Proof.
  split.
  - intros [w E]. destruct (generate_tag_run w) as (xs & Ex & Hlen & Hall).
    rewrite Ex in E. cbn in E. injection E as <-. split.
    + now rewrite length_string_of_list_ascii.
    + rewrite list_ascii_of_string_of_list_ascii.
      eapply Forall_impl; [exact Hall |]. apply alphabet_tag_chars.
  - intros [Hlen Hall].
    exists (mkWorld ∅ [] (stream_of t) 0 (fun _ _ _ => Failure "") None [] []).
    set (w := mkWorld _ _ _ _ _ _ _ _).
    pose proof (replicateM_choice_exact alphabet (list_ascii_of_string t) w) as E.
    assert (Hlist : length (list_ascii_of_string t) = 6%nat).
    { now rewrite <- Hlen, <- (length_string_of_list_ascii (list_ascii_of_string t)),
        string_of_list_ascii_of_string. }
    rewrite Hlist in E. unfold generate_tag, bind. rewrite E.
    + cbn. now rewrite string_of_list_ascii_of_string.
    + intros i x Hx. cbn [rng drawn w]. rewrite Nat.add_0_l. unfold stream_of.
      rewrite (nth_lookup_Some _ _ _ _ Hx).
      apply index_of_alphabet.
      exact (proj1 (Forall_lookup _ _) Hall i x Hx).
Qed.

(** ** The further properties on the example run *)

Lemma report_before_training_begins_witness :
  on_epoch_end (demo_kwargs 1) (mkProcess (demo_callback 2) demo_world) =
  (Raised (AttributeError "'SlackCallback' object has no attribute 'metrics'"),
   mkProcess (demo_callback 2) demo_world) /\
  sent_by (on_train_end (demo_kwargs 3)) (mkProcess (demo_callback 0) demo_world) = [].
Proof.
  split.
  - apply (report_before_training_begins (mkProcess (demo_callback 2) demo_world)
             (demo_kwargs 1)); [reflexivity |].
    split; reflexivity.
  - apply (report_before_training_begins (mkProcess (demo_callback 0) demo_world)
             (demo_kwargs 3)); reflexivity.
Defined.

Lemma mismatched_metrics_witness :
  exists e,
    on_epoch_end (mkKwargs 1 4 (Number half) [] ["accuracy"] None) (demo_running 2) =
    (Raised e, demo_running 2).
Proof.
  apply (mismatched_metrics_not_sent (demo_running 2)
           (mkKwargs 1 4 (Number half) [] ["accuracy"] None)
           ["train_loss"; "valid_loss"; "accuracy"]).
  - reflexivity.
  - discriminate.
  - split; reflexivity.
Defined.

Lemma final_metrics_sent_once_witness :
  sent_by (on_epoch_end (demo_kwargs 3);;; on_train_end (demo_kwargs 3))
    (demo_running 3) =
  [post_of (this (demo_running 3))
     ("*Training complete*" ++ nl ++
      join nl [epoch_line (demo_kwargs 3);
               metrics_table ["train_loss"; "valid_loss"; "accuracy"]
                 (demo_kwargs 3)])].
Proof.
  destruct (final_metrics_sent_once (demo_running 3) (demo_kwargs 3)
              ["train_loss"; "valid_loss"; "accuracy"]) as (_ & _ & Hsent).
  - cbn. lia.
  - reflexivity.
  - reflexivity.
  - reflexivity.
  - reflexivity.
  - destruct Hsent as [([_ Hd] & _) | (_ & Hs)]; [discriminate Hd | exact Hs].
Defined.

Lemma one_tag_per_run_witness :
  exists (t : string) (later : list (string * string)),
    tag (this (snd (run [TrainBegin (demo_kwargs 0); EpochEnd (demo_kwargs 1);
                         TrainEnd (demo_kwargs 3)]
                      (mkProcess (demo_callback 2) demo_world)))) = t /\
    bannered "https://hooks.example/T0" "job" (Some t) later /\
    length later = 2%nat.
Proof.
  destruct (one_tag_per_run (demo_kwargs 0)
              [EpochEnd (demo_kwargs 1); TrainEnd (demo_kwargs 3)]
              (mkProcess (demo_callback 2) demo_world))
    as (t & later & _ & Hsent & Hb & Ht).
  - repeat constructor.
  - exists t, later. split; [exact Ht |]. split; [exact Hb |].
    assert (Hthree : length (sent_by (run [TrainBegin (demo_kwargs 0);
                                          EpochEnd (demo_kwargs 1);
                                          TrainEnd (demo_kwargs 3)])
                               (mkProcess (demo_callback 2) demo_world)) = 3%nat)
      by (vm_compute; reflexivity).
    rewrite Hsent in Hthree. cbn [length] in Hthree. now injection Hthree.
Defined.

Lemma messages_of_a_run_witness :
  length (sent_by (run [TrainBegin (demo_kwargs 0); EpochEnd (demo_kwargs 0);
                        EpochEnd (demo_kwargs 1); EpochEnd (demo_kwargs 2);
                        EpochEnd (demo_kwargs 3); TrainEnd (demo_kwargs 3)])
            (mkProcess (demo_callback 2) demo_world)) = 4%nat.
Proof.
  apply (messages_of_a_run (mkProcess (demo_callback 2) demo_world)
           (demo_kwargs 0) (demo_kwargs 3)
           [demo_kwargs 0; demo_kwargs 1; demo_kwargs 2; demo_kwargs 3]).
  - reflexivity.
  - repeat constructor.
Defined.

Lemma callbacks_raise_only_for_metrics_witness :
  snd (fire (TrainEnd (demo_kwargs 3)) (mkProcess (demo_callback 0) demo_world)) =
  mkProcess (demo_callback 0) demo_world.
Proof.
  apply (callbacks_raise_only_for_metrics (TrainEnd (demo_kwargs 3))
           (mkProcess (demo_callback 0) demo_world)
           (AttributeError "'SlackCallback' object has no attribute 'metrics'")).
  reflexivity.
Defined.

(** * Formatting numbers *)

(** ** Rounding to the nearest integer *)

Lemma round_half_even_bound (a b : Z) :
  0 < b -> - b <= 2 * (a - round_half_even a b * b) <= b.
Proof.
  intros Hb. unfold round_half_even.
  pose proof (Z.div_mod a b ltac:(lia)) as Hdm.
  pose proof (Z.mod_pos_bound a b Hb) as Hr.
  destruct (Z.ltb_spec (2 * (a mod b)) b); [nia |].
  destruct (Z.ltb_spec b (2 * (a mod b))); [nia |].
  destruct (Z.even (a / b)); nia.
Qed.

Lemma round_half_even_unique (a b z : Z) :
  0 < b -> - b < 2 * (a - z * b) < b -> round_half_even a b = z.
Proof.
  intros Hb Hz. unfold round_half_even.
  pose proof (Z.div_mod a b ltac:(lia)) as Hdm.
  pose proof (Z.mod_pos_bound a b Hb) as Hr.
  assert (Hq : a / b = z \/ a / b = z - 1) by nia.
  destruct (Z.ltb_spec (2 * (a mod b)) b); [nia |].
  destruct (Z.ltb_spec b (2 * (a mod b))); [nia |].
  destruct (Z.even (a / b)); nia.
Qed.

Lemma round_half_even_exact (z b : Z) : 0 < b -> round_half_even (z * b) b = z.
Proof. intros Hb. apply round_half_even_unique; [exact Hb | lia]. Qed.

Lemma round_half_even_scale (c a b : Z) :
  0 < c -> 0 < b -> round_half_even (c * a) (c * b) = round_half_even a b.
Proof.
  intros Hc Hb. unfold round_half_even.
  rewrite Z.div_mul_cancel_l by lia.
  rewrite Z.mul_mod_distr_l by lia.
  replace (2 * (c * (a mod b)) <? c * b) with (2 * (a mod b) <? b).
  2:{ destruct (Z.ltb_spec (2 * (a mod b)) b), (Z.ltb_spec (2 * (c * (a mod b))) (c * b));
      try reflexivity; nia. }
  replace (c * b <? 2 * (c * (a mod b))) with (b <? 2 * (a mod b)).
  2:{ destruct (Z.ltb_spec b (2 * (a mod b))), (Z.ltb_spec (c * b) (2 * (c * (a mod b))));
      try reflexivity; nia. }
  reflexivity.
Qed.

Lemma round_half_even_nonneg (a b : Z) : 0 <= a -> 0 < b -> 0 <= round_half_even a b.
Proof.
  intros Ha Hb. unfold round_half_even.
  pose proof (Z.div_pos a b Ha Hb).
  destruct (_ <? _); [lia |]. destruct (_ <? _); [lia |]. destruct (Z.even _); lia.
Qed.

(** ** The value behind the representation *)

(** Everything scaled by [2^1074], the smallest place a binary64 has. *)
Lemma ten_thousandths_scaled (m e : Z) :
  -1074 <= e ->
  ten_thousandths m e = round_half_even (m * 2 ^ (e + 1074) * 10000) (2 ^ 1074).
Proof.
  intros He. unfold ten_thousandths.
  destruct (Z.leb_spec 0 e) as [Hpos | Hneg].
  - rewrite Z.pow_add_r by lia.
    replace (m * (2 ^ e * 2 ^ 1074) * 10000) with (m * 2 ^ e * 10000 * 2 ^ 1074) by ring.
    symmetry. apply round_half_even_exact. now apply Z.pow_pos_nonneg.
  - assert (Hsplit : 2 ^ 1074 = 2 ^ (e + 1074) * 2 ^ (- e)).
    { rewrite <- Z.pow_add_r by lia. f_equal. lia. }
    rewrite Hsplit.
    replace (m * 2 ^ (e + 1074) * 10000) with (2 ^ (e + 1074) * (m * 10000)) by ring.
    symmetry. apply round_half_even_scale; apply Z.pow_pos_nonneg; lia.
Qed.

Lemma ten_thousandths_nonneg (m e : Z) : 0 <= m -> 0 <= ten_thousandths m e.
Proof.
  intros Hm. unfold ten_thousandths. destruct (0 <=? e) eqn:E.
  - apply Z.leb_le in E. pose proof (Z.pow_nonneg 2 e ltac:(lia)). nia.
  - apply Z.leb_gt in E. apply round_half_even_nonneg; [lia |].
    apply Z.pow_pos_nonneg; lia.
Qed.

(** ** Reading a decimal back *)

Lemma round64_mantissa_scaled (n e : Z) :
  -1074 <= e ->
  (if 0 <=? e then round_half_even n (10000 * 2 ^ e)
   else round_half_even (n * 2 ^ (- e)) 10000) =
  round_half_even (n * 2 ^ 1074) (10000 * 2 ^ (e + 1074)).
Proof.
  intros He. destruct (Z.leb_spec 0 e) as [Hpos | Hneg].
  - rewrite Z.pow_add_r by lia.
    replace (n * 2 ^ 1074) with (2 ^ 1074 * n) by ring.
    replace (10000 * (2 ^ e * 2 ^ 1074)) with (2 ^ 1074 * (10000 * 2 ^ e)) by ring.
    symmetry. apply round_half_even_scale; [reflexivity |].
    pose proof (Z.pow_pos_nonneg 2 e). lia.
  - assert (Hsplit : 2 ^ 1074 = 2 ^ (e + 1074) * 2 ^ (- e)).
    { rewrite <- Z.pow_add_r by lia. f_equal. lia. }
    rewrite Hsplit.
    replace (n * (2 ^ (e + 1074) * 2 ^ (- e)))
      with (2 ^ (e + 1074) * (n * 2 ^ (- e))) by ring.
    replace (10000 * 2 ^ (e + 1074)) with (2 ^ (e + 1074) * 10000) by ring.
    symmetry. apply round_half_even_scale; [| lia].
    apply Z.pow_pos_nonneg; lia.
Qed.

(** The exponent [log2_ratio] finds for a count of ten-thousandths. *)
Lemma log2_ratio_spec (n : Z) :
  0 < n ->
  -14 <= log2_ratio n 10000 /\
  10000 * 2 ^ (log2_ratio n 10000 + 14) <= n * 2 ^ 14 <
  10000 * 2 ^ (log2_ratio n 10000 + 15).
Proof.
  intros Hn. unfold log2_ratio.
  change (Z.log2 10000) with 13.
  pose proof (Z.log2_spec n Hn) as Hlog.
  pose proof (Z.log2_nonneg n) as Hlp.
  set (l := Z.log2 n - 13) in *.
  replace (Z.log2 n) with (l + 13) in Hlog by (unfold l; lia).
  replace (Z.succ (l + 13)) with (l + 14) in Hlog by lia.
  assert (Hl : -13 <= l) by (unfold l; lia).
  assert (Hp13 : 0 < 2 ^ (l + 13)) by (apply Z.pow_pos_nonneg; lia).
  assert (H14 : 2 ^ (l + 14) = 2 * 2 ^ (l + 13)).
  { replace (l + 14) with (Z.succ (l + 13)) by lia. apply Z.pow_succ_r. lia. }
  assert (H15 : 2 ^ (l + 15) = 4 * 2 ^ (l + 13)).
  { replace (l + 15) with (Z.succ (l + 14)) by lia. rewrite Z.pow_succ_r by lia. lia. }
  assert (Htest : ge_pow2 n 10000 l = true <-> 10000 * 2 ^ (l + 14) <= n * 2 ^ 14).
  { unfold ge_pow2. destruct (Z.leb_spec 0 l) as [Hpos | Hneg].
    - rewrite Z.leb_le, Z.pow_add_r by lia. pose proof (Z.pow_pos_nonneg 2 14). nia.
    - rewrite Z.leb_le.
      assert (Hsplit : 2 ^ 14 = 2 ^ (l + 14) * 2 ^ (- l)).
      { rewrite <- Z.pow_add_r by lia. f_equal. lia. }
      rewrite Hsplit.
      assert (0 < 2 ^ (l + 14)) by (apply Z.pow_pos_nonneg; lia).
      nia. }
  destruct (ge_pow2 n 10000 l).
  - pose proof (proj1 Htest eq_refl) as Et. split; [lia |]. split; [exact Et |].
    rewrite H15. change (2 ^ 14) with 16384. lia.
  - assert (Hnot : ~ 10000 * 2 ^ (l + 14) <= n * 2 ^ 14).
    { intros Hle. apply Htest in Hle. discriminate. }
    replace (l - 1 + 14) with (l + 13) by lia.
    replace (l - 1 + 15) with (l + 14) by lia.
    split; [lia |]. change (2 ^ 14) with 16384 in *. lia.
Qed.

Lemma pow2_le (a b : Z) : 0 <= a <= b -> 2 ^ a <= 2 ^ b.
Proof. intros Hab. apply Z.pow_le_mono_r; lia. Qed.

(** Reading back the four decimals of a binary64 gives a binary64 with the
    same four decimals. *)
Lemma round64_of_ten_thousandths (neg : bool) (m e : Z) :
  0 <= m < 2 ^ 53 -> -1074 <= e <= 971 ->
  exists m' e',
    round64 neg (ten_thousandths m e) 10000 = Ffinite neg m' e' /\
    0 <= m' < 2 ^ 53 /\ -1074 <= e' <= 971 /\
    ten_thousandths m' e' = ten_thousandths m e.
Proof.
  intros Hm He.
  pose proof (ten_thousandths_nonneg m e ltac:(lia)) as Hn0.
  pose proof (ten_thousandths_scaled m e ltac:(lia)) as Hscaled.
  set (n := ten_thousandths m e) in *.
  unfold round64. destruct (Z.eqb_spec n 0) as [Hz | Hnz].
  { exists 0, (-1074). split; [reflexivity |]. split; [lia |]. split; [lia |].
    rewrite Hz. vm_compute. reflexivity. }
  assert (Hn : 0 < n) by lia.
  destruct (log2_ratio_spec n Hn) as (Hk & Hlo & Hhi).
  set (k := log2_ratio n 10000) in *.
  rewrite (Z.max_l (k - 52) (-1074)) by lia.
  rewrite (round64_mantissa_scaled n (k - 52)) by lia.
  replace (k - 52 + 1074) with (k + 1022) by lia.
  (* the powers of two in play *)
  assert (HU : 0 < 2 ^ (k + 1022)) by (apply Z.pow_pos_nonneg; lia).
  assert (HA : 0 < 2 ^ (k + 14)) by (apply Z.pow_pos_nonneg; lia).
  assert (HW : 0 < 2 ^ (e + 1074)) by (apply Z.pow_pos_nonneg; lia).
  assert (HP : 0 < 2 ^ 1074) by (apply Z.pow_pos_nonneg; lia).
  assert (HAU : 2 ^ (k + 1022) * 2 ^ 66 = 2 ^ (k + 14) * 2 ^ 1074).
  { rewrite <- !Z.pow_add_r by lia. f_equal. lia. }
  assert (HA15 : 2 ^ (k + 15) = 2 * 2 ^ (k + 14)).
  { replace (k + 15) with (Z.succ (k + 14)) by lia. apply Z.pow_succ_r. lia. }
  assert (HWQ : 2 ^ (e + 1074) <= 2 ^ 2045) by (apply pow2_le; lia).
  rewrite HA15 in Hhi.
  (* the two roundings *)
  pose proof (round_half_even_bound (m * 2 ^ (e + 1074) * 10000) (2 ^ 1074) HP) as Rn.
  rewrite <- Hscaled in Rn.
  pose proof (round_half_even_bound (n * 2 ^ 1074) (10000 * 2 ^ (k + 1022)) ltac:(lia)) as Rm.
  pose proof (round_half_even_nonneg (n * 2 ^ 1074) (10000 * 2 ^ (k + 1022))
                ltac:(nia) ltac:(lia)) as Hm0.
  set (m0 := round_half_even (n * 2 ^ 1074) (10000 * 2 ^ (k + 1022))) in *.
  (* name the powers, so that arithmetic sees them as unknowns *)
  remember (2 ^ 1074) as P eqn:EP.
  remember (2 ^ (k + 1022)) as U eqn:EU.
  remember (2 ^ (k + 14)) as A eqn:EA.
  remember (2 ^ (e + 1074)) as W eqn:EW.
  remember (n * P) as X eqn:EX.
  change (2 ^ 66) with 73786976294838206464 in HAU.
  change (2 ^ 14) with 16384 in Hlo, Hhi.
  assert (F1 : 10000 * U * 4503599627370496 <= X < 10000 * U * 9007199254740992).
  { assert (10000 * (A * P) <= X * 16384 < 2 * 10000 * (A * P)) by (subst X; nia).
    lia. }
  assert (Hm0' : m0 <= 2 ^ 53).
  { change (2 ^ 53) with 9007199254740992. nia. }
  (* the result of the rounding has the same four decimals *)
  assert (Hsame : round_half_even (m0 * U * 10000) P = n).
  { destruct (Z_le_gt_dec k 38) as [Hsmall | Hlarge].
    - (* the last place is finer than a ten-thousandth *)
      assert (HUP : U * 16384 <= P).
      { subst U P. change 16384 with (2 ^ 14). rewrite <- Z.pow_add_r by lia.
        apply pow2_le. lia. }
      apply round_half_even_unique; [exact HP |].
      subst X. nia.
    - (* the last place is coarser: the nearest binary64 is the one we had *)
      assert (HPU : P <= U * 8192).
      { subst U P. change 8192 with (2 ^ 13). rewrite <- Z.pow_add_r by lia.
        apply pow2_le. lia. }
      assert (Hee : k - 52 <= e).
      { destruct (Z_le_gt_dec (k - 52) e) as [| Hlt]; [assumption | exfalso].
        assert (HWU : 2 * W <= U).
        { subst W U. change 2 with (2 ^ 1) at 1. rewrite <- Z.pow_add_r by lia.
          apply pow2_le. lia. }
        change (2 ^ 53) with 9007199254740992 in Hm.
        assert (HV : m * W <= 9007199254740991 * W) by nia.
        lia. }
      assert (HWU : W = 2 ^ (e - (k - 52)) * U).
      { subst W U. rewrite <- Z.pow_add_r by lia. f_equal. lia. }
      assert (Hm0eq : m0 = m * 2 ^ (e - (k - 52))).
      { subst m0. apply round_half_even_unique; [lia |].
        replace (m * 2 ^ (e - (k - 52)) * (10000 * U)) with (m * W * 10000)
          by (rewrite HWU; ring).
        lia. }
      replace (m0 * U * 10000) with (m * W * 10000)
        by (rewrite Hm0eq, HWU; ring).
      symmetry. exact Hscaled. }
  (* no overflow *)
  assert (Hk1023 : k <= 1023).
  { destruct (Z_le_gt_dec k 1023) as [| Hbig]; [assumption | exfalso].
    assert (HQU : 2 * 2 ^ 2045 <= U).
    { subst U. change 2 with (2 ^ 1) at 1. rewrite <- Z.pow_add_r by lia.
      apply pow2_le. lia. }
    change (2 ^ 53) with 9007199254740992 in Hm.
    assert (HV : m * W <= 9007199254740991 * W) by nia.
    assert (HPQ : P < 2 ^ 2045) by (subst P; apply Z.pow_lt_mono_r; lia).
    lia. }
  assert (Hk1022 : m0 = 2 ^ 53 -> k <= 1022).
  { intros Em0. destruct (Z_le_gt_dec k 1022) as [| Hbig]; [assumption | exfalso].
    assert (HQU : U = 2 ^ 2045) by (subst U; f_equal; lia).
    change (2 ^ 53) with 9007199254740992 in Hm, Em0.
    assert (HV : m * W <= 9007199254740991 * W) by nia.
    assert (HPQ : P < 2 ^ 2045) by (subst P; apply Z.pow_lt_mono_r; lia).
    rewrite Em0 in Rm. lia. }
  destruct (Z.eqb_spec m0 (2 ^ 53)) as [Em0 | Nm0].
  - specialize (Hk1022 Em0).
    destruct (Z.ltb_spec 971 (k - 52 + 1)) as [| _]; [lia |].
    exists (2 ^ 52), (k - 52 + 1).
    split; [reflexivity |].
    split; [change (2 ^ 52) with 4503599627370496;
            change (2 ^ 53) with 9007199254740992; lia |].
    split; [lia |].
    rewrite <- Hsame. rewrite (ten_thousandths_scaled (2 ^ 52) (k - 52 + 1)) by lia.
    rewrite <- EP. f_equal.
    replace (k - 52 + 1 + 1074) with (Z.succ (k + 1022)) by lia.
    rewrite Z.pow_succ_r by lia. rewrite <- EU, Em0.
    change (2 ^ 53) with (2 * 2 ^ 52). ring.
  - destruct (Z.ltb_spec 971 (k - 52)) as [| _]; [lia |].
    exists m0, (k - 52).
    split; [reflexivity |]. split; [lia |]. split; [lia |].
    rewrite <- Hsame. rewrite (ten_thousandths_scaled m0 (k - 52)) by lia.
    rewrite <- EP. f_equal.
    replace (k - 52 + 1074) with (k + 1022) by lia. now rewrite <- EU.
Qed.

(** ** Decimal strings *)

Lemma all_digits_cons (c : ascii) (s : string) :
  all_digits (String c s) = is_digit c && all_digits s.
Proof. reflexivity. Qed.

Lemma all_digits_string_of_uint (d : uint) :
  all_digits (NilEmpty.string_of_uint d) = true.
Proof.
  induction d; cbn [NilEmpty.string_of_uint];
    rewrite ?all_digits_cons, ?IHd; reflexivity.
Qed.

Lemma str_N_digits (k : N) : all_digits (str_N k) = true.
Proof. apply all_digits_string_of_uint. Qed.

Lemma str_N_nonempty (k : N) : str_N k <> "".
Proof.
  unfold str_N. destruct k as [| p]; [discriminate |].
  cbn [N.to_uint]. pose proof (Unsigned.to_uint_nonnil p) as Hnil.
  destruct (Pos.to_uint p); [contradiction | discriminate ..].
Qed.

Lemma digits_value_str_N (k : N) : digits_value (str_N k) = Some (Z.of_N k).
Proof.
  unfold digits_value. pose proof (str_N_nonempty k) as Hne.
  destruct (str_N k) eqn:E; [contradiction |]. rewrite <- E.
  unfold str_N. rewrite NilEmpty.usu. cbn [option_map].
  now rewrite DecimalN.Unsigned.of_to.
Qed.

Lemma four_digits_mod (n : Z) : four_digits n = four_digits (n mod 10000).
Proof.
  unfold four_digits.
  assert (E3 : n / 1000 mod 10 = n mod 10000 / 1000 mod 10)
    by (Z.div_mod_to_equations; lia).
  assert (E2 : n / 100 mod 10 = n mod 10000 / 100 mod 10)
    by (Z.div_mod_to_equations; lia).
  assert (E1 : n / 10 mod 10 = n mod 10000 / 10 mod 10)
    by (Z.div_mod_to_equations; lia).
  assert (E0 : n mod 10 = n mod 10000 mod 10)
    by (Z.div_mod_to_equations; lia).
  now rewrite E3, E2, E1, E0.
Qed.

Lemma all_below_spec (f : Z -> bool) (n : nat) :
  all_below f n = true -> forall r, 0 <= r < Z.of_nat n -> f r = true.
Proof.
  induction n as [| n IH]; intros Hall r Hr; [lia |].
  cbn [all_below] in Hall. apply andb_true_iff in Hall as [Hn Hrest].
  destruct (Z.eq_dec r (Z.of_nat n)) as [-> | Hne]; [exact Hn |].
  apply IH; [exact Hrest | lia].
Qed.

Lemma reads_back_all : all_below reads_back (Z.to_nat 10000) = true.
Proof. vm_compute. reflexivity. Qed.

Lemma four_digits_read_back (n : Z) :
  digits_value (four_digits n) = Some (n mod 10000) /\
  all_digits (four_digits n) = true.
Proof.
  pose proof (Z.mod_pos_bound n 10000 ltac:(lia)) as Hr.
  pose proof (all_below_spec reads_back _ reads_back_all (n mod 10000) ltac:(lia)) as Hrb.
  unfold reads_back in Hrb. rewrite <- (four_digits_mod n) in Hrb.
  destruct (digits_value (four_digits n)) as [v |]; [| discriminate Hrb].
  destruct (Z.eqb_spec v (n mod 10000)) as [Ev | Nv]; [| discriminate Hrb].
  split; [now rewrite Ev | exact Hrb].
Qed.

Lemma is_digit_not_special (c : ascii) :
  is_digit c = true ->
  Ascii.eqb c "." = false /\ Ascii.eqb c "-" = false /\
  Ascii.eqb c "n" = false /\ Ascii.eqb c "i" = false.
Proof.
  destruct c as [[] [] [] [] [] [] [] []]; intros Hd;
    first [discriminate Hd | repeat split].
Qed.

Lemma split_point_digits (ip fp : string) :
  all_digits ip = true -> split_point (ip ++ "." ++ fp) = (ip, Some fp).
Proof.
  induction ip as [| c ip IH]; intros Hd.
  - reflexivity.
  - rewrite all_digits_cons in Hd. apply andb_true_iff in Hd as [Hc Hip].
    change (String c ip ++ "." ++ fp) with (String c (ip ++ "." ++ fp)).
    cbn [split_point]. destruct (is_digit_not_special c Hc) as (-> & _).
    now rewrite (IH Hip).
Qed.

(** [float] reads a fixed-point numeral as the nearest binary64. *)
Lemma float_of_string_fixed (neg : bool) (k : N) (fp : string) (b : Z) :
  digits_value fp = Some b ->
  float_of_string (sign_str neg ++ str_N k ++ "." ++ fp) =
  Some (round64 neg (Z.of_N k * 10 ^ Z.of_nat (String.length fp) + b)
          (10 ^ Z.of_nat (String.length fp))).
Proof.
  intros Hfp.
  pose proof (str_N_nonempty k) as Hne. pose proof (str_N_digits k) as Hd.
  pose proof (digits_value_str_N k) as Hv.
  destruct (str_N k) as [| c ip] eqn:E; [contradiction |].
  rewrite all_digits_cons in Hd. apply andb_true_iff in Hd as [Hc Hip].
  destruct (is_digit_not_special c Hc) as (Hpt & Hminus & Hn & Hi).
  assert (Hbody : forall sg : bool,
    (if String.eqb (String c ip ++ "." ++ fp) "nan" then Some Fnan
     else if String.eqb (String c ip ++ "." ++ fp) "inf" then Some (Finf sg)
     else match split_point (String c ip ++ "." ++ fp) with
          | (ip0, None) => option_map (fun n => round64 sg n 1) (digits_value ip0)
          | (ip0, Some fp0) =>
              match digits_value ip0, digits_value fp0 with
              | Some a, Some b0 =>
                  let scale := 10 ^ Z.of_nat (String.length fp0) in
                  Some (round64 sg (a * scale + b0) scale)
              | _, _ => None
              end
          end) =
    Some (round64 sg (Z.of_N k * 10 ^ Z.of_nat (String.length fp) + b)
            (10 ^ Z.of_nat (String.length fp)))).
  { intros sg.
    rewrite (split_point_digits (String c ip) fp)
      by (rewrite all_digits_cons, Hc, Hip; reflexivity).
    rewrite Hv, Hfp.
    change (String c ip ++ "." ++ fp) with (String c (ip ++ "." ++ fp)).
    cbn [String.eqb]. rewrite Hn, Hi. reflexivity. }
  unfold float_of_string. destruct neg; cbn [sign_str].
  - change ("-" ++ String c ip ++ "." ++ fp) with (String "-" (String c ip ++ "." ++ fp)).
    cbn [strip_sign Ascii.eqb Bool.eqb]. apply Hbody.
  - change ("" ++ String c ip ++ "." ++ fp) with (String c (ip ++ "." ++ fp)).
    cbn [strip_sign]. rewrite Hminus. apply Hbody.
Qed.

(** ** Formatting a metric *)

Lemma format_4f_fixed_point (neg : bool) (m e : Z) :
  0 <= m -> fixed_point4 (format_4f (Ffinite neg m e)).
Proof.
  intros Hm. cbn [format_4f].
  exists neg, (str_N (Z.to_N (ten_thousandths m e / 10000))),
    (four_digits (ten_thousandths m e)).
  split; [reflexivity |]. split; [apply str_N_nonempty |].
  split; [apply str_N_digits |].
  split; [apply four_digits_read_back | reflexivity].
Qed.

Lemma format_4f_read_back (x : pyfloat) :
  binary64 x ->
  exists x', float_of_string (format_4f x) = Some x' /\ binary64 x' /\
             format_4f x' = format_4f x.
Proof.
  intros Hx. destruct x as [| neg | neg m e].
  - exists Fnan. repeat split.
  - exists (Finf neg). destruct neg; repeat split.
  - destruct Hx as [Hm He].
    pose proof (ten_thousandths_nonneg m e ltac:(lia)) as Hn.
    destruct (round64_of_ten_thousandths neg m e Hm He)
      as (m' & e' & Hround & Hm' & He' & Hsame).
    exists (Ffinite neg m' e'). split; [| split; [split; assumption |]].
    + cbn [format_4f].
      rewrite (float_of_string_fixed neg _ _ _
                 (proj1 (four_digits_read_back (ten_thousandths m e)))).
      change (10 ^ Z.of_nat (String.length (four_digits (ten_thousandths m e))))
        with 10000.
      rewrite Z2N.id by (apply Z.div_pos; lia).
      replace (ten_thousandths m e / 10000 * 10000 + ten_thousandths m e mod 10000)
        with (ten_thousandths m e)
        by (pose proof (Z.div_mod (ten_thousandths m e) 10000); lia).
      now rewrite Hround.
    + cbn [format_4f]. now rewrite Hsame.
Qed.

(** C6, as the code has it. A finite number, plain or the item of a
    tensor, is formatted as a fixed-point numeral with exactly four digits
    after the point. Every number, finite or not, is formatted to a
    string that [float] reads back as a number formatted to the very same
    string. *)
Theorem format_metric_four_decimals_idempotent (val : metric_value) :
  binary64 (item_of val) ->
  (is_finite (item_of val) = true -> fixed_point4 (format_metric val)) /\
  exists x' : pyfloat,
    float_of_string (format_metric val) = Some x' /\
    binary64 x' /\
    format_metric (Number x') = format_metric val.
Proof.
  intros Hx. unfold format_metric. split.
  - destruct (item_of val) as [| neg | neg m e]; try discriminate.
    intros _. apply format_4f_fixed_point. cbn in Hx. lia.
  - apply format_4f_read_back. exact Hx.
Qed.

(** A NaN is formatted as [nan], which has no decimal point at all. *)
Lemma format_metric_nan_no_decimals :
  binary64 (item_of (Number Fnan)) /\
  format_metric (Number Fnan) = "nan" /\
  ~ fixed_point4 (format_metric (Number Fnan)).
Proof.
  split; [exact I |]. split; [reflexivity |].
  intros (neg & ip & fp & E & Hne & Hd & _).
  change (format_metric (Number Fnan)) with "nan" in E.
  destruct neg; cbn [sign_str] in E.
  - discriminate E.
  - destruct ip as [| c ip]; [contradiction |].
    change ("" ++ String c ip ++ "." ++ fp) with (String c (ip ++ "." ++ fp)) in E.
    injection E as <- _. discriminate Hd.
Qed.

Lemma format_metric_witness :
  fixed_point4 (format_metric (Tensor half)) /\
  exists x' : pyfloat,
    float_of_string (format_metric (Tensor half)) = Some x' /\
    binary64 x' /\
    format_metric (Number x') = format_metric (Tensor half).
Proof.
  destruct (format_metric_four_decimals_idempotent (Tensor half)) as [Hfixed Hback].
  - cbn. lia.
  - split; [apply Hfixed; reflexivity | exact Hback].
Defined.

Example format_metric_half : format_metric (Tensor half) = "0.5000".
Proof. reflexivity. Qed.

Example format_metric_tie_to_even :
  format_metric (Number (Ffinite false 1 (-5))) = "0.0312" /\
  format_metric (Number (Ffinite false 3 (-5))) = "0.0938".
Proof. split; reflexivity. Qed.

Example format_metric_small_negative :
  format_metric (Number (Ffinite true 1 (-20))) = "-0.0000" /\
  float_of_string "-0.0000" = Some (Ffinite true 0 (-1074)).
Proof. split; reflexivity. Qed.
